(** * Agent control loops of hello-agents (learning-space-code/C2)

    A shallow embedding of [main.py] (the language-model client and the
    ReAct loop), of [plan-executor.py] (planner, executor and their
    orchestrator) and of [serp_search.py], with the properties of their
    control flow.

    Text is a [string] holding the UTF-8 encoding of a Python [str].
    Searching, splitting and matching a literal, and [.] (any character
    but the line feed) are the same on the encoding as on the
    characters.  [strip] and [\w] look at whole characters: they decode
    the character at the front of a text, and [\w] asks the table of
    Unicode letters and digits, which is a parameter ([Py.Unicode]).
    Printing to the console is left out: it does not feed back into the
    control flow. *)

From Stdlib Require Import Bool Arith Lia NArith ZArith List.
From Stdlib Require Import Ascii String.
From Stdlib Require Import DecimalString.
Import ListNotations.

Set Warnings "-register-all".

Open Scope string_scope.

(* ================================================================== *)
(** * Python strings *)

Module Py.

(** The characters that a string literal of this file cannot hold. *)
Definition nl : string := String "010"%char EmptyString.
Definition dquote : string := String "034"%char EmptyString.

(** [not s]: the truth value of a string is whether it is non-empty. *)
Definition falsy (s : string) : bool :=
  match s with EmptyString => true | String _ _ => false end.

(** [x or ""] on an optional string. *)
Definition or_empty (r : option string) : string :=
  match r with Some s => s | None => "" end.

(** [not x] on an optional string: [None] and [""] are both false. *)
Definition falsy_opt (r : option string) : bool :=
  match r with Some s => falsy s | None => true end.

(** [str.isspace] on a character of ASCII. *)
Definition isspace (c : ascii) : bool :=
  let n := nat_of_ascii c in
  (((9 <=? n) && (n <=? 13)) || ((28 <=? n) && (n <=? 32)))%nat.

(** A word character of [\w] in ASCII: a letter, a digit or the
    underscore. *)
Definition isword (c : ascii) : bool :=
  let n := nat_of_ascii c in
  (((48 <=? n) && (n <=? 57)) || ((65 <=? n) && (n <=? 90))
   || ((97 <=? n) && (n <=? 122)) || (n =? 95))%nat.

(** What [.] matches: any character but the line feed. *)
Definition isdot (c : ascii) : bool := negb (nat_of_ascii c =? 10)%nat.

(** The table behind [str.isalnum], which [\w] consults for the
    characters beyond ASCII. *)
Class Unicode := { isalnum : N -> bool }.

(** The character at the front of a text: its code point and the number
    of bytes of its encoding. *)
Definition cont (c : ascii) : bool :=
  ((128 <=? N_of_ascii c) && (N_of_ascii c <? 192))%N.

Definition head_char (s : string) : option (N * nat) :=
  match s with
  | EmptyString => None
  | String b0 s1 =>
      let n0 := N_of_ascii b0 in
      if (n0 <? 128)%N then Some (n0, 1)
      else if (n0 <? 194)%N then None
      else if (n0 <? 224)%N then
        match s1 with
        | String b1 _ =>
            if cont b1
            then Some (((n0 - 192) * 64 + (N_of_ascii b1 - 128))%N, 2)
            else None
        | EmptyString => None
        end
      else if (n0 <? 240)%N then
        match s1 with
        | String b1 (String b2 _) =>
            if cont b1 && cont b2
            then Some (((n0 - 224) * 4096 + (N_of_ascii b1 - 128) * 64
                        + (N_of_ascii b2 - 128))%N, 3)
            else None
        | _ => None
        end
      else if (n0 <? 245)%N then
        match s1 with
        | String b1 (String b2 (String b3 _)) =>
            if cont b1 && cont b2 && cont b3
            then Some (((n0 - 240) * 262144 + (N_of_ascii b1 - 128) * 4096
                        + (N_of_ascii b2 - 128) * 64 + (N_of_ascii b3 - 128))%N, 4)
            else None
        | _ => None
        end
      else None
  end.

(** [str.isspace] beyond ASCII: U+0085, U+00A0, U+1680, U+2000 to
    U+200A, U+2028, U+2029, U+202F, U+205F and U+3000. *)
Definition uspace (cp : N) : bool :=
  ((cp =? 133) || (cp =? 160) || (cp =? 5760)
   || ((8192 <=? cp) && (cp <=? 8202))
   || (cp =? 8232) || (cp =? 8233) || (cp =? 8239) || (cp =? 8287)
   || (cp =? 12288))%N.

(** The number of bytes of the white-space character at the front of a
    text, [0] when there is none. *)
Definition space_len (s : string) : nat :=
  match s with
  | EmptyString => 0
  | String c _ =>
      if isspace c then 1
      else match head_char s with
           | Some (cp, n) => if uspace cp then n else 0
           | None => 0
           end
  end.

(** The number of bytes of the word character of [\w] at the front of a
    text, [0] when there is none. *)
Definition word_len `{Unicode} (s : string) : nat :=
  match s with
  | EmptyString => 0
  | String c _ =>
      if isword c then 1
      else match head_char s with
           | Some (cp, n) => if (128 <=? cp)%N && isalnum cp then n else 0
           | None => 0
           end
  end.

(** [s] is a run of characters of one kind, [tok] giving the length of
    such a character at the front of a text; [skip] counts the bytes of
    the current character still to pass over. *)
Fixpoint all_tok (tok : string -> nat) (skip : nat) (s : string) : bool :=
  match s with
  | EmptyString => match skip with O => true | S _ => false end
  | String _ s' =>
      match skip with
      | S k => all_tok tok k s'
      | O =>
          match tok s with
          | O => false
          | S k => all_tok tok k s'
          end
      end
  end.

(** [s] without the characters of that kind at its front. *)
Fixpoint drop_toks (tok : string -> nat) (skip : nat) (s : string) : string :=
  match s with
  | EmptyString => EmptyString
  | String _ s' =>
      match skip with
      | S k => drop_toks tok k s'
      | O =>
          match tok s with
          | O => s
          | S k => drop_toks tok k s'
          end
      end
  end.

(** A length function of characters of one kind is local when it is
    decided by the bytes it counts. *)
Definition local (tok : string -> nat) : Prop :=
  (forall r b n, tok r = S n -> tok (r ++ b) = S n /\ n < String.length r)
  /\ (forall r b n, tok (r ++ b) = S n -> n < String.length r -> tok r = S n).

(** A text of white space only, and a run of word characters. *)
Definition blank (s : string) : bool := all_tok space_len 0 s.

Definition all_word `{Unicode} (s : string) : bool := all_tok word_len 0 s.

Definition lstrip (s : string) : string := drop_toks space_len 0 s.

Fixpoint rstrip (s : string) : string :=
  match s with
  | EmptyString => EmptyString
  | String c s' => if blank s then EmptyString else String c (rstrip s')
  end.

(** [s.strip()] *)
Definition strip (s : string) : string := rstrip (lstrip s).

(** [sep.join(xs)] *)
Fixpoint join (sep : string) (xs : list string) : string :=
  match xs with
  | [] => ""
  | [x] => x
  | x :: rest => x ++ sep ++ join sep rest
  end.

(** [s.startswith(p)] *)
Definition startswith (s p : string) : bool := prefix p s.

(** [p in s] *)
Fixpoint occurs (p s : string) : bool :=
  prefix p s ||
  match s with
  | EmptyString => false
  | String _ s' => occurs p s'
  end.

(** [s.split(sep)] for a non-empty [sep]: the text is cut at every
    occurrence of [sep], scanning from the left; [skip] counts the
    characters of a separator still to pass over and [cur] is the piece
    being built. *)
Fixpoint split_from (sep cur : string) (skip : nat) (s : string) : list string :=
  match s with
  | EmptyString => [cur]
  | String c s' =>
      match skip with
      | S k => split_from sep cur k s'
      | O =>
          if prefix sep s
          then cur :: split_from sep "" (length sep - 1) s'
          else split_from sep (cur ++ String c "") 0 s'
      end
  end.

Definition split (s sep : string) : list string := split_from sep "" 0 s.

(** Any character but the backtick of a code fence. *)
Definition no_backtick (c : ascii) : bool := negb (Ascii.eqb c "`").

(** Every character of [s] satisfies [p]. *)
Fixpoint all_chars (p : ascii -> bool) (s : string) : bool :=
  match s with
  | EmptyString => true
  | String c s' => p c && all_chars p s'
  end.

(** The longest prefix of [s] whose characters satisfy [p], and what
    follows it. *)
Fixpoint take_while (p : ascii -> bool) (s : string) : string :=
  match s with
  | EmptyString => EmptyString
  | String c s' => if p c then String c (take_while p s') else EmptyString
  end.

Fixpoint drop_while (p : ascii -> bool) (s : string) : string :=
  match s with
  | EmptyString => EmptyString
  | String c s' => if p c then drop_while p s' else s
  end.

(** [x] occurs in [s] as a contiguous piece. *)
Definition within (x s : string) : Prop := exists a b, s = a ++ x ++ b.

(** [str(n)] of a natural number, as an f-string renders it. *)
Definition str_of_nat (n : nat) : string := NilEmpty.string_of_uint (Nat.to_uint n).

(** An excerpt of the table, for the examples: letters and digits of the
    Latin, Greek and Cyrillic scripts, kana, Hangul and Han ideographs.
    Every code point listed is a letter or a digit of Unicode; the table
    of Unicode has many more. *)
Definition everyday_ranges : list (N * N) :=
  [(170, 170); (178, 179); (181, 181); (185, 186); (188, 190); (192, 214);
   (216, 246); (248, 705); (880, 883); (886, 887); (891, 893); (902, 902);
   (904, 906); (908, 908); (910, 929); (931, 1013); (1015, 1153);
   (1162, 1327); (12353, 12438); (12449, 12538); (13312, 19893);
   (19968, 40869); (44032, 55203); (65296, 65305); (65313, 65338);
   (65345, 65370); (131072, 173782)]%N.

Definition everyday : Unicode :=
  {| isalnum := fun cp =>
       existsb (fun r => (fst r <=? cp) && (cp <=? snd r))%N everyday_ranges |}.

(** The ideographic space U+3000 and the no-break space U+00A0, encoded. *)
Definition ideographic_space : string :=
  String "227"%char (String "128"%char (String "128"%char "")).

Definition no_break_space : string := String "194"%char (String "160"%char "").

End Py.

(* ================================================================== *)
(** * The regular expressions of [re], as far as the sources use them *)

Module Re.

Inductive charclass := Dot | Word.

Definition in_class (c : charclass) : ascii -> bool :=
  match c with Dot => Py.isdot | Word => Py.isword end.

(** The patterns of the sources are built from literal text, a greedy
    repetition of one character class and capture groups that do not
    nest.  [in_class] is the class seen byte by byte, which is all there
    is to [.]; [\w] is matched character by character, see [exec]. *)
Inductive regex :=
| Lit (s : string)
| Star (c : charclass)
| Plus (c : charclass)
| Group (r : regex)
| Cat (r1 r2 : regex).

(** [drop_lit p s]: the rest of [s] after the literal [p], when [s]
    starts with it. *)
Fixpoint drop_lit (p s : string) : option string :=
  match p with
  | EmptyString => Some s
  | String a p' =>
      match s with
      | EmptyString => None
      | String b s' => if Ascii.eqb a b then drop_lit p' s' else None
      end
  end.

(** Greedy repetition with backtracking: take a further character when
    the class allows it and the rest of the pattern then succeeds, else
    stop here.  [acc] is the text matched so far. *)
Fixpoint star {A} (c : ascii -> bool) (acc s : string)
         (k : string -> string -> option A) : option A :=
  match s with
  | EmptyString => k acc s
  | String a s' =>
      if c a
      then match star c (acc ++ String a "") s' k with
           | Some r => Some r
           | None => k acc s
           end
      else k acc s
  end.

(** The same over characters of several bytes, [tok] giving the length
    of a character of the class at the front of a text: the repetition
    stops between characters only.  [skip] counts the bytes of the
    current character still to take. *)
Fixpoint star_tok {A} (tok : string -> nat) (skip : nat) (acc s : string)
         (k : string -> string -> option A) : option A :=
  match skip with
  | S n =>
      match s with
      | EmptyString => None
      | String a s' => star_tok tok n (acc ++ String a "") s' k
      end
  | O =>
      match s with
      | EmptyString => k acc s
      | String a s' =>
          match tok s with
          | O => k acc s
          | S n =>
              match star_tok tok n (acc ++ String a "") s' k with
              | Some r => Some r
              | None => k acc s
              end
          end
      end
  end.

(** The backtracking matcher, in continuation-passing style: [k] gets
    the text this pattern matched, the rest of the input and the groups
    captured so far.  A repetition of [\w] that must take one character
    at least is one that may not stop with nothing taken. *)
Fixpoint exec `{Py.Unicode} {A} (r : regex) (s : string) (gs : list string)
         (k : string -> string -> list string -> option A) : option A :=
  match r with
  | Lit p =>
      match drop_lit p s with
      | Some rest => k p rest gs
      | None => None
      end
  | Star Dot => star (in_class Dot) "" s (fun m rest => k m rest gs)
  | Star Word => star_tok Py.word_len 0 "" s (fun m rest => k m rest gs)
  | Plus Dot =>
      match s with
      | String a s' =>
          if in_class Dot a
          then star (in_class Dot) (String a "") s' (fun m rest => k m rest gs)
          else None
      | EmptyString => None
      end
  | Plus Word =>
      star_tok Py.word_len 0 "" s
               (fun m rest => if Py.falsy m then None else k m rest gs)
  | Group r1 => exec r1 s gs (fun m rest gs' => k m rest (gs' ++ [m])%list)
  | Cat r1 r2 =>
      exec r1 s gs (fun m1 rest gs1 =>
        exec r2 rest gs1 (fun m2 rest' gs2 => k (m1 ++ m2) rest' gs2))
  end.

(** Any character but the closing bracket. *)
Definition not_rbracket (c : ascii) : bool := negb (Ascii.eqb c "]").

(** [re.match(r, s)]: a match anchored at the start of [s]; the result
    is the list of the groups, [group(1)] first. *)
Definition re_match `{Py.Unicode} (r : regex) (s : string) : option (list string) :=
  exec r s [] (fun _ _ gs => Some gs).

(** [re.search(r, s)]: the match at the leftmost position that has one. *)
Fixpoint re_search `{Py.Unicode} (r : regex) (s : string) : option (list string) :=
  match re_match r s with
  | Some m => Some m
  | None =>
      match s with
      | EmptyString => None
      | String _ s' => re_search r s'
      end
  end.

(** [m.group(i)] for [i >= 1] on a match that has this group. *)
Definition group (m : list string) (i : nat) : string := nth (i - 1) m "".

End Re.

(* ================================================================== *)
(** * The language-model client and the world around a run *)

Module Client.

(** A conversation turn, [{"role": ..., "content": ...}]. *)
Record Message := { role : string; content : string }.

(** What the remote service does with one request: it streams chunks,
    whose [delta.content] may be absent, or the request (or the reading
    of the stream) raises. *)
Inductive completion :=
| Stream (chunks : list (option string))
| Failure.

(** [HelloAgentsLLM]: the model identifier and the remote service behind
    [self.client].  The service is given the number of requests made
    before this one, so it may answer the same messages differently each
    time. *)
Record HelloAgentsLLM := {
  model : string;
  client : nat -> list Message -> completion
}.

(** The effects of a run on its collaborators: every model call with
    what [think] returned for it, and every tool call (name, input,
    returned observation), in the order they happened. *)
Record World := {
  llm_calls : list (list Message * option string);
  tool_calls : list (string * string * string)
}.

Definition no_calls : World := {| llm_calls := []; tool_calls := [] |}.

(** [HelloAgentsLLM.think]: the chunks are concatenated in arrival
    order, an absent content counting as [""]; any exception is caught
    and turned into [None]. *)
Definition think (llm : HelloAgentsLLM) (messages : list Message) (w : World)
  : option string * World :=
  let result :=
    match client llm (List.length (llm_calls w)) messages with
    | Stream chunks => Some (String.concat "" (map Py.or_empty chunks))
    | Failure => None
    end in
  (result, {| llm_calls := (llm_calls w ++ [(messages, result)])%list;
              tool_calls := tool_calls w |}).

(** A service that answers its k-th request with the k-th entry of a
    script and fails once the script is used up. *)
Definition scripted (script : list completion) : HelloAgentsLLM :=
  {| model := "scripted";
     client := fun k _ => nth k script Failure |}.

(** A streamed answer in one chunk. *)
Definition says (text : string) : completion := Stream [Some text].

End Client.

(* ================================================================== *)
(** * The tool registry *)

Module Tools.

(** A registered tool.  The callable is given the number of tool calls
    made before this one, so it may answer the same input differently
    each time. *)
Record Tool := {
  description : string;
  func : nat -> string -> string
}.

(** Modelled from the spec: the class [ToolExecutor] of the module
    [tools], which is not among the sources.  The registry keeps the
    tools in registration order; a second registration under a name
    replaces the first one; [getTool] gives the callable or nothing;
    [getAvailableTools] lists all tools in registration order.  The
    spec does not fix how one tool is laid out in the listing, so the
    registry carries that as [entry]. *)
Record ToolExecutor := {
  tools : list (string * Tool);
  entry : string -> string -> string
}.

Fixpoint assoc (name : string) (ts : list (string * Tool)) : option Tool :=
  match ts with
  | [] => None
  | (n, t) :: rest => if String.eqb n name then Some t else assoc name rest
  end.

Fixpoint put (name : string) (t : Tool) (ts : list (string * Tool))
  : list (string * Tool) :=
  match ts with
  | [] => [(name, t)]
  | (n, t0) :: rest =>
      if String.eqb n name then (n, t) :: rest else (n, t0) :: put name t rest
  end.

Definition registerTool (te : ToolExecutor) (name description : string)
           (func : nat -> string -> string) : ToolExecutor :=
  {| tools := put name {| description := description; func := func |} (tools te);
     entry := entry te |}.

Definition getTool (te : ToolExecutor) (name : string)
  : option (nat -> string -> string) :=
  option_map func (assoc name (tools te)).

Definition getAvailableTools (te : ToolExecutor) : string :=
  Py.join Py.nl (map (fun nt => entry te (fst nt) (description (snd nt))) (tools te)).

Definition empty_registry : ToolExecutor :=
  {| tools := []; entry := fun n d => "- " ++ n ++ ": " ++ d |}.

End Tools.

(* ================================================================== *)
(** * [main.py]: the ReAct agent *)

Module ReAct.

Import Client Tools.

Section Agent.

Context `{U : Py.Unicode}.

(** [REACT_PROMPT_TEMPLATE.format(tools=..., question=..., history=...)] *)
Definition REACT_PROMPT (tools question history : string) : string :=
  Py.nl ++
  "请注意，你是一个有能力调用外部工具的智能助手。" ++ Py.nl ++
  Py.nl ++
  "可用工具如下:" ++ Py.nl ++
  tools ++ Py.nl ++
  Py.nl ++
  "请严格按照以下格式进行回应:" ++ Py.nl ++
  Py.nl ++
  "Thought: 你的思考过程，用于分析问题、拆解任务和规划下一步行动。" ++ Py.nl ++
  "Action: 你决定采取的行动，必须是以下格式之一:" ++ Py.nl ++
  "- `{tool_name}[{tool_input}]`:调用一个可用工具。" ++ Py.nl ++
  "- `Finish[最终答案]`:当你认为已经获得最终答案时。" ++ Py.nl ++
  "- 当你收集到足够的信息，能够回答用户的最终问题时，你必须在Action:字段后使用 finish(answer="
    ++ Py.dquote ++ "..." ++ Py.dquote ++ ") 来输出最终答案。" ++ Py.nl ++
  Py.nl ++
  "现在，请开始解决以下问题:" ++ Py.nl ++
  "Question: " ++ question ++ Py.nl ++
  "History: " ++ history ++ Py.nl.

(** The instance: its collaborators and the step budget. *)
Record ReActAgent := {
  llmClient : HelloAgentsLLM;
  toolExecutor : ToolExecutor;
  maxSteps : Z
}.

(** The mutable part: [self.history] and the world of the collaborators. *)
Record State := {
  history : list string;
  world : World
}.

(** The patterns of the three parsers. *)
Definition thought_re : Re.regex := Re.Cat (Re.Lit "Thought: ") (Re.Group (Re.Star Re.Dot)).
Definition action_re : Re.regex := Re.Cat (Re.Lit "Action: ") (Re.Group (Re.Star Re.Dot)).
Definition finish_re : Re.regex :=
  Re.Cat (Re.Lit "Finish[") (Re.Cat (Re.Group (Re.Star Re.Dot)) (Re.Lit "]")).
Definition tool_re : Re.regex :=
  Re.Cat (Re.Group (Re.Plus Re.Word))
         (Re.Cat (Re.Lit "[") (Re.Cat (Re.Group (Re.Star Re.Dot)) (Re.Lit "]"))).

(** [ReActAgent._parse_output] *)
Definition _parse_output (text : string) : option string * option string :=
  let thought_match := Re.re_search thought_re text in
  let action_match := Re.re_search action_re text in
  let thought := option_map (fun m => Py.strip (Re.group m 1)) thought_match in
  let action := option_map (fun m => Py.strip (Re.group m 1)) action_match in
  (thought, action).

(** [ReActAgent._parse_action] *)
Definition _parse_action (action_text : string) : option string * option string :=
  match Re.re_match tool_re action_text with
  | Some m => (Some (Re.group m 1), Some (Re.group m 2))
  | None => (None, None)
  end.

(** The exception that can leave [run]. *)
Inductive exn := AttributeError.

(** How one pass through the body of the [while] loop ends. *)
Inductive flow :=
| Continue
| Break
| Return (final_answer : string)
| Raised (e : exn).

(** A tool call, recorded in the world. *)
Definition call_tool (tool_name : string) (tool_function : nat -> string -> string)
           (tool_input : string) (w : World) : string * World :=
  let observation := tool_function (List.length (tool_calls w)) tool_input in
  (observation,
   {| llm_calls := llm_calls w;
      tool_calls := (tool_calls w ++ [(tool_name, tool_input, observation)])%list |}).

(** The two history lines of one tool call,
    [f"Action: {action}"] and [f"Observation: {observation}"]. *)
Definition lines (action observation : string) : list string :=
  ["Action: " ++ action; "Observation: " ++ observation].

(** The body of the [while] loop of [ReActAgent.run] from the point
    where [think] has returned [response]; [st] is the state after that
    call. *)
Definition act (agent : ReActAgent) (response : option string) (st : State)
  : flow * State :=
  if Py.falsy_opt response then (Break, st)
  else
    let response_text := Py.or_empty response in
    let (thought, action_opt) := _parse_output response_text in
    if Py.falsy_opt action_opt then (Break, st)
    else
      let action := Py.or_empty action_opt in
      if Py.startswith action "Finish" then
        match Re.re_match finish_re action with
        | None => (Raised AttributeError, st)
        | Some m => let final_answer := Re.group m 1 in (Return final_answer, st)
        end
      else
        let (tool_name, tool_input) := _parse_action action in
        if Py.falsy_opt tool_name || Py.falsy_opt tool_input then (Continue, st)
        else
          let tool_name := Py.or_empty tool_name in
          let tool_input := Py.or_empty tool_input in
          match getTool (toolExecutor agent) tool_name with
          | None =>
              let observation := "错误:未找到名为 '" ++ tool_name ++ "' 的工具。" in
              (Continue, st)
          | Some tool_function =>
              let (observation, w2) :=
                call_tool tool_name tool_function tool_input (world st) in
              (Continue,
               {| history := List.app (history st) (lines action observation);
                  world := w2 |})
          end.

(** The body of the [while] loop of [ReActAgent.run]: the prompt is
    rendered from the tool listing, the question and the joined history,
    the model is asked, and the response is acted on. *)
Definition step (agent : ReActAgent) (question : string) (st : State) : flow * State :=
  let tool_desc := getAvailableTools (toolExecutor agent) in
  let history_str := Py.join Py.nl (history st) in
  let prompt := REACT_PROMPT tool_desc question history_str in
  let messages := [ {| role := "user"; content := prompt |} ] in
  let (response, w1) := think (llmClient agent) messages (world st) in
  act agent response {| history := history st; world := w1 |}.

(** The result of [run]: the returned value ([None] or the answer), or
    the exception that left it. *)
Inductive outcome :=
| Returned (answer : option string)
| Raises (e : exn).

(** The [while] loop; [remaining] is [maxSteps - current_step]. *)
Fixpoint loop (agent : ReActAgent) (question : string) (remaining : nat) (st : State)
  : outcome * State :=
  match remaining with
  | O => (Returned None, st)
  | S n =>
      match step agent question st with
      | (Continue, st') => loop agent question n st'
      | (Break, st') => (Returned None, st')
      | (Return final_answer, st') => (Returned (Some final_answer), st')
      | (Raised e, st') => (Raises e, st')
      end
  end.

(** [self.history = []] *)
Definition reset (st : State) : State := {| history := []; world := world st |}.

(** [ReActAgent.run] *)
Definition run (agent : ReActAgent) (question : string) (st : State) : outcome * State :=
  loop agent question (Z.to_nat (maxSteps agent)) (reset st).

(** The request of the next pass through the loop, what [think] returns
    for it, and the state once the call is made. *)
Definition messages_at (agent : ReActAgent) (question : string) (st : State)
  : list Message :=
  [ {| role := "user";
       content := REACT_PROMPT (getAvailableTools (toolExecutor agent)) question
                               (Py.join Py.nl (history st)) |} ].

Definition response_at (agent : ReActAgent) (question : string) (st : State)
  : option string :=
  fst (think (llmClient agent) (messages_at agent question st) (world st)).

Definition after_think (agent : ReActAgent) (question : string) (st : State) : State :=
  {| history := history st;
     world := snd (think (llmClient agent) (messages_at agent question st) (world st)) |}.

(** A response whose action the loop takes for a [Finish]. *)
Definition is_finish (response : option string) : bool :=
  match response with
  | Some text =>
      match snd (_parse_output text) with
      | Some action => Py.startswith action "Finish"
      | None => false
      end
  | None => false
  end.

(** The model calls and the tool calls made between two states. *)
Definition llm_calls_since (st st' : State) : list (list Message * option string) :=
  skipn (List.length (llm_calls (world st))) (llm_calls (world st')).

Definition tool_calls_since (st st' : State) : list (string * string * string) :=
  skipn (List.length (tool_calls (world st))) (tool_calls (world st')).

(** What acting on a response can do to the state: nothing, or one tool
    call with its two history lines; only a pass that goes on to the
    next one can have called a tool. *)
Inductive acted (st : State) : flow -> State -> Prop :=
| acted_idle (f : flow) : acted st f st
| acted_tool (action tool_name tool_input observation : string) :
    acted st Continue
          {| history := List.app (history st) (lines action observation);
             world := {| llm_calls := llm_calls (world st);
                         tool_calls := List.app (tool_calls (world st))
                                         [(tool_name, tool_input, observation)] |} |}.

(** The loop, seen from outside: the model calls and the tool calls it
    added, against its budget and its history. *)
Inductive loop_summary (remaining : nat) (st : State) (r : outcome) (st' : State) : Prop :=
| Summary (new_llm : list (list Message * option string))
          (new_tools : list (string * string * string)) :
    llm_calls (world st') = List.app (llm_calls (world st)) new_llm ->
    tool_calls (world st') = List.app (tool_calls (world st)) new_tools ->
    List.length new_llm <= remaining ->
    List.length (history st') = List.length (history st) + 2 * List.length new_tools ->
    (forallb (fun c => negb (is_finish (snd c))) new_llm = true -> r = Returned None) ->
    loop_summary remaining st r st'.

(** Written from the spec (4.4, steps 4 to 7): the tool invocation a
    response leads to, if it leads to one.  The pass is a successful
    tool invocation when the response has an action that is not a
    [Finish], the action decomposes into a tool name and a tool input,
    both non-empty, and the registry knows the tool.  The result is the
    action as written, the name and the input. *)
Definition tool_invocation (agent : ReActAgent) (response : option string)
  : option (string * string * string) :=
  match response with
  | None => None
  | Some text =>
      match snd (_parse_output text) with
      | None => None
      | Some action =>
          if Py.falsy text || Py.falsy action || Py.startswith action "Finish"
          then None
          else
            match _parse_action action with
            | (Some tool_name, Some tool_input) =>
                if Py.falsy tool_name || Py.falsy tool_input then None
                else
                  match getTool (toolExecutor agent) tool_name with
                  | Some _ => Some (action, tool_name, tool_input)
                  | None => None
                  end
            | _ => None
            end
      end
  end.

(** The number of tool invocations among the model calls recorded. *)
Definition invocations (agent : ReActAgent)
           (calls : list (list Message * option string)) : nat :=
  List.length
    (filter (fun call =>
               match tool_invocation agent (snd call) with
               | Some _ => true
               | None => false
               end) calls).

Definition fresh : State := {| history := []; world := no_calls |}.

(** A registry with one tool that echoes its input. *)
Definition echo_registry : ToolExecutor :=
  registerTool empty_registry "echo" "repeats its input" (fun _ x => "you said " ++ x).

Definition agent_of (script : list completion) (te : ToolExecutor) (budget : Z) : ReActAgent :=
  {| llmClient := scripted script; toolExecutor := te; maxSteps := budget |}.

(** Scripted runs used as examples. *)
Definition finish_text : string :=
  "Thought: done" ++ Py.nl ++ "Action: Finish[echo[x] gave 42]".
Definition finishing_agent : ReActAgent := agent_of [says finish_text] echo_registry 5.

Definition musing_text : string := "Thought: I am not sure what to do".
Definition musing_agent : ReActAgent := agent_of [says musing_text] echo_registry 5.

Definition silent_agent : ReActAgent := agent_of [Stream []] echo_registry 5.
Definition failing_agent : ReActAgent := agent_of [Failure] echo_registry 5.

Definition midway : State :=
  {| history := lines "echo[one]" "you said one"; world := no_calls |}.

Definition inline_text : string := "Thought: the Action: echo[hi] would help".
Definition inline_agent : ReActAgent := agent_of [says inline_text] echo_registry 5.

Definition busy_agent : ReActAgent :=
  agent_of [says "Action: echo[one]"; says "Action: nothing here"; says "Action: echo[two]"]
           echo_registry 3.

End Agent.

End ReAct.

(* ================================================================== *)
(** * [plan-executor.py]: planner, executor and orchestrator *)

Module PlanSolve.

Import Client.

Section Agents.

Context `{U : Py.Unicode}.

(** The values a Python literal can denote, as far as the planner tells
    them apart: it asks only whether the value is a list.  [LOther]
    stands for the remaining kinds (floats, bytes, dicts, sets), kept as
    their source text. *)
Inductive literal :=
| LStr (s : string)
| LInt (z : Z)
| LBool (b : bool)
| LNone
| LList (xs : list literal)
| LTuple (xs : list literal)
| LOther (src : string).

(** The two functions of the Python library the module calls:
    [ast.literal_eval], which gives the value or raises ([None]), and
    [repr]. *)
Record Builtins := {
  literal_eval : string -> option literal;
  repr : literal -> string
}.

(** [str(v)], which an f-string or [format] applies to a field: a string
    is itself, every other value is its [repr]. *)
Definition str (bi : Builtins) (v : literal) : string :=
  match v with
  | LStr s => s
  | _ => repr bi v
  end.

(** [PLANNER_PROMPT_TEMPLATE.format(question=...)] *)
Definition PLANNER_PROMPT (question : string) : string :=
  Py.nl ++
  "你是一个顶级的AI规划专家。你的任务是将用户提出的复杂问题分解成一个由多个简单步骤组成的行动计划。" ++ Py.nl ++
  "请确保计划中的每个步骤都是一个独立的、可执行的子任务，并且严格按照逻辑顺序排列。" ++ Py.nl ++
  "你的输出必须是一个Python列表，其中每个元素都是一个描述子任务的字符串。" ++ Py.nl ++
  Py.nl ++
  "问题: " ++ question ++ Py.nl ++
  Py.nl ++
  "请严格按照以下格式输出你的计划,```python与```作为前后缀是必要的:" ++ Py.nl ++
  "```python" ++ Py.nl ++
  "[" ++ Py.dquote ++ "步骤1" ++ Py.dquote ++ ", " ++ Py.dquote ++ "步骤2" ++ Py.dquote
      ++ ", " ++ Py.dquote ++ "步骤3" ++ Py.dquote ++ ", ...]" ++ Py.nl ++
  "```" ++ Py.nl.

(** [EXECUTOR_PROMPT_TEMPLATE.format(question=..., plan=..., history=...,
    current_step=...)] *)
Definition EXECUTOR_PROMPT (question plan history current_step : string) : string :=
  Py.nl ++
  "你是一位顶级的AI执行专家。你的任务是严格按照给定的计划，一步步地解决问题。" ++ Py.nl ++
  "你将收到原始问题、完整的计划、以及到目前为止已经完成的步骤和结果。" ++ Py.nl ++
  "请你专注于解决“当前步骤”，并仅输出该步骤的最终答案，不要输出任何额外的解释或对话。" ++ Py.nl ++
  Py.nl ++
  "# 原始问题:" ++ Py.nl ++
  question ++ Py.nl ++
  Py.nl ++
  "# 完整计划:" ++ Py.nl ++
  plan ++ Py.nl ++
  Py.nl ++
  "# 历史步骤与结果:" ++ Py.nl ++
  history ++ Py.nl ++
  Py.nl ++
  "# 当前步骤:" ++ Py.nl ++
  current_step ++ Py.nl ++
  Py.nl ++
  "请仅输出针对“当前步骤”的回答:" ++ Py.nl.

(** The text between the fences,
    [response_text.split("```python")[1].split("```")[0].strip()];
    [None] is the [IndexError] of a missing fence. *)
Definition fenced (response_text : string) : option string :=
  match nth_error (Py.split response_text "```python") 1 with
  | None => None
  | Some after =>
      match nth_error (Py.split after "```") 0 with
      | None => None
      | Some body => Some (Py.strip body)
      end
  end.

(** The [try] block of [Planner.plan]: both [except] clauses give the
    empty list. *)
Definition parse_plan (bi : Builtins) (response_text : string) : list literal :=
  match fenced response_text with
  | None => []
  | Some plan_str =>
      match literal_eval bi plan_str with
      | None => []
      | Some (LList steps) => steps
      | Some _ => []
      end
  end.

(** The request of the planner. *)
Definition plan_messages (question : string) : list Message :=
  [ {| role := "user"; content := PLANNER_PROMPT question |} ].

(** [Planner.plan] *)
Definition plan (llm_client : HelloAgentsLLM) (bi : Builtins) (question : string)
           (w : World) : list literal * World :=
  let messages := plan_messages question in
  let (response, w1) := think llm_client messages w in
  let response_text := Py.or_empty response in
  (parse_plan bi response_text, w1).

(** The exception that can leave [Executor.execute]: on an empty plan
    the name [response_text] is never bound. *)
Inductive exn := UnboundLocalError.

(** One entry of the running transcript,
    [f"步骤 {i+1}: {step}\n结果: {response_text}\n\n"]. *)
Definition block (i : nat) (step response_text : string) : string :=
  "步骤 " ++ Py.str_of_nat (i + 1) ++ ": " ++ step ++ Py.nl ++
  "结果: " ++ response_text ++ Py.nl ++ Py.nl.

(** The prompt of one step: an empty transcript is shown as ["无"]. *)
Definition step_prompt (bi : Builtins) (question : string) (plan : list literal)
           (history : string) (step : literal) : string :=
  EXECUTOR_PROMPT question (str bi (LList plan))
                  (if Py.falsy history then "无" else history) (str bi step).

(** The [for] loop of [Executor.execute] over [enumerate(plan)], from
    index [i] on; [response_text] is unbound ([None]) until the first
    pass. *)
Fixpoint execute_loop (llm_client : HelloAgentsLLM) (bi : Builtins) (question : string)
         (plan : list literal) (i : nat) (steps : list literal)
         (history : string) (response_text : option string) (w : World)
  : string * option string * World :=
  match steps with
  | [] => (history, response_text, w)
  | step :: rest =>
      let prompt := step_prompt bi question plan history step in
      let messages := [ {| role := "user"; content := prompt |} ] in
      let (response, w1) := think llm_client messages w in
      let response_text := Py.or_empty response in
      let history := history ++ block i (str bi step) response_text in
      execute_loop llm_client bi question plan (S i) rest history (Some response_text) w1
  end.

(** [Executor.execute] *)
Definition execute (llm_client : HelloAgentsLLM) (bi : Builtins) (question : string)
           (plan : list literal) (w : World) : (string + exn) * World :=
  match execute_loop llm_client bi question plan 0 plan "" None w with
  | (_, Some final_answer, w') => (inl final_answer, w')
  | (_, None, w') => (inr UnboundLocalError, w')
  end.

(** How [PlanAndSolveAgent.run] went: it stopped for want of a plan, or
    it ran the executor, which gave the answer that is printed.  The
    method itself returns [None] either way. *)
Inductive report :=
| NoPlan
| Solved (final_answer : string)
| Failed (e : exn).

(** [PlanAndSolveAgent.run] *)
Definition run (llm_client : HelloAgentsLLM) (bi : Builtins) (question : string)
           (w : World) : report * World :=
  let (plan, w1) := plan llm_client bi question w in
  match plan with
  | [] => (NoPlan, w1)
  | _ :: _ =>
      match execute llm_client bi question plan w1 with
      | (inl final_answer, w2) => (Solved final_answer, w2)
      | (inr e, w2) => (Failed e, w2)
      end
  end.

(** The transcript after the first [k] steps, given the results of the
    steps, and the request of step [k] (counted from 0). *)
Fixpoint transcript (bi : Builtins) (plan : list literal) (results : list string)
         (k : nat) : string :=
  match k with
  | O => ""
  | S k' =>
      transcript bi plan results k'
      ++ block k' (str bi (nth k' plan LNone)) (nth k' results "")
  end.

Definition step_messages (bi : Builtins) (question : string) (plan : list literal)
           (results : list string) (k : nat) : list Message :=
  [ {| role := "user";
       content := step_prompt bi question plan (transcript bi plan results k)
                              (nth k plan LNone) |} ].

(** A small evaluator for the examples: a single-quoted word is a
    string, and a bracketed, comma-separated list of such words is a
    list.  It stands in for [ast.literal_eval] on such texts only. *)
Definition quoted_head (s : string) : option (string * string) :=
  match Re.re_match (Re.Cat (Re.Lit "'") (Re.Cat (Re.Group (Re.Plus Re.Word)) (Re.Lit "'"))) s with
  | None => None
  | Some m =>
      let item := Re.group m 1 in
      Some (item, substring (String.length item + 2) (String.length s) s)
  end.

Fixpoint quoted_items (fuel : nat) (s : string) : option (list literal) :=
  match fuel with
  | O => None
  | S fuel' =>
      match quoted_head s with
      | None => None
      | Some (item, rest) =>
          if String.eqb rest "]" then Some [LStr item]
          else match Re.drop_lit "," rest with
               | Some rest' => option_map (cons (LStr item)) (quoted_items fuel' rest')
               | None => None
               end
      end
  end.

Definition toy_eval (s : string) : option literal :=
  match Re.drop_lit "[" s with
  | Some rest => option_map LList (quoted_items (String.length s) rest)
  | None =>
      match quoted_head s with
      | Some (item, "") => Some (LStr item)
      | _ => None
      end
  end.

Definition toy_builtins : Builtins :=
  {| literal_eval := toy_eval;
     repr := fun _ => "<value>" |}.

(** Scripted runs used as examples. *)
Definition fenced_ab : string :=
  "```python" ++ Py.nl ++ "['a','b']" ++ Py.nl ++ "```".

Definition planning_llm : HelloAgentsLLM :=
  scripted [says fenced_ab; says "one"; Failure].

Definition chatty_llm : HelloAgentsLLM := scripted [says "['a','b']"].

Definition fenced_broken : string := "```python" ++ Py.nl ++ "['a'," ++ Py.nl ++ "```".
Definition broken_llm : HelloAgentsLLM := scripted [says fenced_broken].

Definition fenced_word : string := "```python" ++ Py.nl ++ "'a'" ++ Py.nl ++ "```".
Definition word_llm : HelloAgentsLLM := scripted [says fenced_word].


Definition solving_llm : HelloAgentsLLM :=
  scripted [says "first"; Failure; says "third"].

End Agents.

End PlanSolve.

(* ================================================================== *)
(** * [main.py]: the construction of the client *)

Module Config.

(** The arguments of [HelloAgentsLLM.__init__]; an argument left out is
    [None]. *)
Record Args := {
  model : option string;
  apiKey : option string;
  baseUrl : option string;
  timeout : option Z
}.

(** What the constructor settles on: [self.model] and the arguments it
    hands to [OpenAI(...)]. *)
Record Settings := {
  model_id : string;
  api_key : string;
  base_url : string;
  timeout_s : Z
}.

(** The two places that raise [ValueError]: the constructor's own check
    and [int(...)] on the text of [LLM_TIMEOUT]. *)
Inductive exn :=
| ValueError_settings
| ValueError_int.

(** [arg or os.getenv(name)] *)
Definition or_getenv (arg : option string) (env : string -> option string)
           (name : string) : option string :=
  if Py.falsy_opt arg then env name else arg.

(** The truth value of an optional integer: [None] and [0] are false. *)
Definition truthy_int (t : option Z) : bool :=
  match t with
  | Some z => negb (z =? 0)%Z
  | None => false
  end.

(** [os.getenv(name, default)] *)
Definition getenv_default (env : string -> option string) (name default : string)
  : string :=
  match env name with
  | Some v => v
  | None => default
  end.

(** [HelloAgentsLLM.__init__], given the environment and Python's
    [int] on a text ([None] where it raises). *)
Definition init (int_of : string -> option Z) (env : string -> option string)
           (a : Args) : Settings + exn :=
  let model := or_getenv (model a) env "LLM_MODEL_ID" in
  let apiKey := or_getenv (apiKey a) env "LLM_API_KEY" in
  let baseUrl := or_getenv (baseUrl a) env "LLM_BASE_URL" in
  match (if truthy_int (timeout a) then timeout a
         else int_of (getenv_default env "LLM_TIMEOUT" "60")) with
  | None => inr ValueError_int
  | Some timeout =>
      if Py.falsy_opt model || Py.falsy_opt apiKey || Py.falsy_opt baseUrl
      then inr ValueError_settings
      else inl {| model_id := Py.or_empty model;
                  api_key := Py.or_empty apiKey;
                  base_url := Py.or_empty baseUrl;
                  timeout_s := timeout |}
  end.

(** The arguments with every empty text and a zero timeout taken for
    left out. *)
Definition given (arg : option string) : option string :=
  if Py.falsy_opt arg then None else arg.

Definition drop_blank (a : Args) : Args :=
  {| model := given (model a);
     apiKey := given (apiKey a);
     baseUrl := given (baseUrl a);
     timeout := if truthy_int (timeout a) then timeout a else None |}.

(** Examples: an environment with every variable, an empty one, and a
    reader of plain decimal numerals standing in for [int]. *)
Definition full_env (name : string) : option string :=
  if String.eqb name "LLM_MODEL_ID" then Some "env-model"
  else if String.eqb name "LLM_API_KEY" then Some "env-key"
  else if String.eqb name "LLM_BASE_URL" then Some "http://env"
  else if String.eqb name "LLM_TIMEOUT" then Some "30"
  else None.

Definition no_env (name : string) : option string := None.

Definition decimal (s : string) : option Z :=
  option_map (fun u => Z.of_nat (Nat.of_uint u)) (NilEmpty.uint_of_string s).

Definition no_args : Args :=
  {| model := None; apiKey := None; baseUrl := None; timeout := None |}.

Definition blank_args : Args :=
  {| model := Some ""; apiKey := None; baseUrl := Some ""; timeout := Some 0%Z |}.

Definition all_args : Args :=
  {| model := Some "m"; apiKey := Some "k"; baseUrl := Some "http://u";
     timeout := Some 5%Z |}.

End Config.

(* ================================================================== *)
(** * [serp_search.py]: the search tool *)

Module Serp.

(** The parts of the service's answer that [search] reads.  A key that
    is not in a dictionary is [None]. *)
Record Organic := {
  title : option string;
  snippet : option string
}.

Record AnswerBox := { answer : option string }.

Record KnowledgeGraph := { description : option string }.

Record Results := {
  answer_box_list : option (list string);
  answer_box : option AnswerBox;
  knowledge_graph : option KnowledgeGraph;
  organic_results : option (list Organic)
}.

(** The request handed to [SerpApiClient]. *)
Record Params := {
  engine : string;
  q : string;
  api_key : string;
  gl : string;
  hl : string
}.

(** [SerpApiClient(params).get_dict()]: the answer, or the text of the
    exception it raises. *)
Definition Api := Params -> Results + string.

(** [res.get(key, '')] *)
Definition get_or_empty (field : option string) : string := Py.or_empty field.

(** The list comprehension over [enumerate(...)], from index [i] on. *)
Fixpoint snippets_from (i : nat) (rs : list Organic) : list string :=
  match rs with
  | [] => []
  | res :: rest =>
      ("[" ++ Py.str_of_nat (i + 1) ++ "] " ++ get_or_empty (title res) ++ Py.nl
           ++ get_or_empty (snippet res))
        :: snippets_from (S i) rest
  end.

(** What [search] makes of an answer of the service. *)
Definition summarise (query : string) (results : Results) : string :=
  match answer_box_list results with
  | Some items => Py.join Py.nl items
  | None =>
      match answer_box results with
      | Some {| answer := Some a |} => a
      | _ =>
          match knowledge_graph results with
          | Some {| description := Some d |} => d
          | _ =>
              match organic_results results with
              | Some ((_ :: _) as rs) =>
                  Py.join (Py.nl ++ Py.nl) (snippets_from 0 (firstn 3 rs))
              | _ => "对不起，没有找到关于 '" ++ query ++ "' 的信息。"
              end
          end
      end
  end.

(** The body of the [try]: the text returned, or the text of the
    exception raised in it. *)
Definition attempt (env : string -> option string) (api : Api) (query : string)
  : string + string :=
  let key := env "SERPAPI_API_KEY" in
  if Py.falsy_opt key
  then inr "SerpAPI API key must be provided as an environment variable."
  else
    let params := {| engine := "google"; q := query; api_key := Py.or_empty key;
                     gl := "us"; hl := "en" |} in
    match api params with
    | inl results => inl (summarise query results)
    | inr e => inr e
    end.

(** [search] *)
Definition search (env : string -> option string) (api : Api) (query : string)
  : string :=
  match attempt env api query with
  | inl text => text
  | inr e => "搜索时发生错误: " ++ e
  end.

(** Examples. *)
Definition key_env (name : string) : option string :=
  if String.eqb name "SERPAPI_API_KEY" then Some "secret" else None.

Definition blank_env (name : string) : option string :=
  if String.eqb name "SERPAPI_API_KEY" then Some "" else None.

Definition nothing : Results :=
  {| answer_box_list := None; answer_box := None; knowledge_graph := None;
     organic_results := None |}.

Definition hit (t s : string) : Organic := {| title := Some t; snippet := Some s |}.

Definition four_hits : list Organic :=
  [hit "a" "1"; hit "b" "2"; {| title := None; snippet := Some "3" |}; hit "d" "4"].

Definition organic_only (rs : list Organic) : Results :=
  {| answer_box_list := None; answer_box := None; knowledge_graph := None;
     organic_results := Some rs |}.

Definition down_api : Api := fun _ => inr "connection refused".

End Serp.

(* ================================================================== *)
(** * Strings *)

Section StringFacts.

Lemma app_nil_r (s : string) : s ++ "" = s.
Proof. induction s as [|c s IH]; simpl; [reflexivity | now rewrite IH]. Qed.

Lemma app_assoc (a b c : string) : (a ++ b) ++ c = a ++ (b ++ c).
Proof. induction a as [|x a IH]; simpl; [reflexivity | now rewrite IH]. Qed.

Lemma app_snoc (a : string) (c : ascii) (b : string) :
  (a ++ String c "") ++ b = a ++ String c b.
Proof. now rewrite app_assoc. Qed.

Lemma all_chars_app (p : ascii -> bool) (a b : string) :
  Py.all_chars p (a ++ b) = Py.all_chars p a && Py.all_chars p b.
Proof.
  induction a as [|x a IH]; simpl; [reflexivity|].
  rewrite IH. now rewrite andb_assoc.
Qed.

Lemma take_while_all (p : ascii -> bool) (s : string) :
  Py.all_chars p (Py.take_while p s) = true.
Proof.
  induction s as [|c s IH]; simpl; [reflexivity|].
  destruct (p c) eqn:E; simpl; [now rewrite E | reflexivity].
Qed.

(** A run of characters followed by one outside the class. *)
Lemma take_while_stop (p : ascii -> bool) (a : string) (c : ascii) (b : string) :
  Py.all_chars p a = true -> p c = false ->
  Py.take_while p (a ++ String c b) = a.
Proof.
  intros Ha Hc. induction a as [|x a IH]; simpl in *.
  - now rewrite Hc.
  - apply andb_true_iff in Ha as [Hx Ha]. rewrite Hx. now rewrite IH.
Qed.

(** Cutting a line at a line feed does not change the line's start. *)
Lemma take_while_dot_nl (u rest : string) :
  Py.take_while Py.isdot (u ++ Py.nl ++ rest) = Py.take_while Py.isdot u.
Proof.
  induction u as [|c u IH]; simpl in *; [reflexivity|].
  destruct (Py.isdot c); [now rewrite IH | reflexivity].
Qed.

(** What is left of a text after dropping characters at its front is
    its end. *)
Lemma drop_toks_suffix (tok : string -> nat) :
  forall s skip, exists a, s = a ++ Py.drop_toks tok skip s.
Proof.
  induction s as [|c s IH]; intros skip; [now exists ""|].
  cbn [Py.drop_toks].
  assert (Go : forall k, exists a, String c s = a ++ Py.drop_toks tok k s).
  { intros k. destruct (IH k) as (a & E). exists (String c a).
    cbn [append]. now rewrite <- E. }
  destruct skip as [|k]; [|apply Go].
  destruct (tok (String c s)); [now exists "" | apply Go].
Qed.

Lemma rstrip_prefix (s : string) : exists b, s = Py.rstrip s ++ b.
Proof.
  induction s as [|c s (b & IH)]; [now exists ""|].
  cbn [Py.rstrip]. destruct (Py.blank (String c s)).
  - now exists (String c s).
  - exists b. cbn [append]. now rewrite <- IH.
Qed.

Lemma lstrip_all (p : ascii -> bool) (s : string) :
  Py.all_chars p s = true -> Py.all_chars p (Py.lstrip s) = true.
Proof.
  unfold Py.lstrip. destruct (drop_toks_suffix Py.space_len s 0) as (a & E).
  intros H. rewrite E, all_chars_app in H. now apply andb_true_iff in H as [_ H].
Qed.

Lemma rstrip_all (p : ascii -> bool) (s : string) :
  Py.all_chars p s = true -> Py.all_chars p (Py.rstrip s) = true.
Proof.
  destruct (rstrip_prefix s) as (b & E).
  intros H. rewrite E, all_chars_app in H. now apply andb_true_iff in H as [H _].
Qed.

Lemma strip_all (p : ascii -> bool) (s : string) :
  Py.all_chars p s = true -> Py.all_chars p (Py.strip s) = true.
Proof. intros H. unfold Py.strip. now apply rstrip_all, lstrip_all. Qed.

Lemma within_trans (x y z : string) : Py.within x y -> Py.within y z -> Py.within x z.
Proof.
  intros (a & b & ->) (c & d & ->). exists (c ++ a), (b ++ d).
  now rewrite !app_assoc.
Qed.

End StringFacts.

(* ================================================================== *)
(** * Characters of several bytes *)

Section CharacterFacts.

Context `{U : Py.Unicode}.

Lemma length_app (a b : string) : String.length (a ++ b) = String.length a + String.length b.
Proof. induction a as [|x a IH]; simpl; [reflexivity | now rewrite IH]. Qed.

(** The character at the front of a text is decided by the bytes of its
    own encoding. *)
Lemma head_char_app (r b : string) (cp : N) (n : nat) :
  Py.head_char r = Some (cp, n) ->
  Py.head_char (r ++ b) = Some (cp, n) /\ n <= String.length r /\ 0 < n.
Proof.
  unfold Py.head_char.
  destruct r as [|b0 [|b1 [|b2 [|b3 r]]]]; cbn [append String.length];
    repeat match goal with
           | |- context [if ?c then _ else _] => destruct c
           end;
    intros H; try discriminate H; inversion H; subst;
    repeat split; try lia.
Qed.

Lemma head_char_cut (r b : string) (cp : N) (n : nat) :
  Py.head_char (r ++ b) = Some (cp, n) ->
  n <= String.length r ->
  Py.head_char r = Some (cp, n).
Proof.
  unfold Py.head_char.
  destruct r as [|b0 [|b1 [|b2 [|b3 r]]]]; cbn [append String.length];
    try (destruct b as [|c0 [|c1 [|c2 [|c3 b]]]]);
    repeat match goal with
           | |- context [if ?c then _ else _] => destruct c
           end;
    intros H; try discriminate H; inversion H; subst;
    intros L; try reflexivity; exfalso; cbn [String.length] in L; lia.
Qed.

Lemma head_char_pos (s : string) (cp : N) (n : nat) :
  Py.head_char s = Some (cp, n) -> 0 < n /\ n <= String.length s.
Proof.
  intros H. destruct (head_char_app s "" cp n H) as (_ & L & P). auto.
Qed.

Lemma space_len_local : Py.local Py.space_len.
Proof.
  split.
  - intros r b n. unfold Py.space_len. destruct r as [|c r]; [discriminate|].
    cbn [append]. change (String c (r ++ b)) with (String c r ++ b).
    destruct (Py.isspace c).
    { intros H. injection H as <-. cbn [String.length]. split; [reflexivity | lia]. }
    destruct (Py.head_char (String c r)) as [[cp m]|] eqn:E; [|discriminate].
    destruct (head_char_app _ b _ _ E) as (E' & L & P). rewrite E'.
    destruct (Py.uspace cp); [|discriminate]. intros ->. split; [reflexivity | lia].
  - intros r b n. unfold Py.space_len. destruct r as [|c r]; [cbn; lia|].
    cbn [append]. change (String c (r ++ b)) with (String c r ++ b).
    destruct (Py.isspace c); [auto|].
    destruct (Py.head_char (String c r ++ b)) as [[cp m]|] eqn:E; [|discriminate].
    destruct (Py.uspace cp) eqn:S; [|discriminate]. intros -> L.
    rewrite (head_char_cut _ _ _ _ E) by lia. now rewrite S.
Qed.

Lemma word_len_local : Py.local Py.word_len.
Proof.
  split.
  - intros r b n. unfold Py.word_len. destruct r as [|c r]; [discriminate|].
    cbn [append]. change (String c (r ++ b)) with (String c r ++ b).
    destruct (Py.isword c).
    { intros H. injection H as <-. cbn [String.length]. split; [reflexivity | lia]. }
    destruct (Py.head_char (String c r)) as [[cp m]|] eqn:E; [|discriminate].
    destruct (head_char_app _ b _ _ E) as (E' & L & P). rewrite E'.
    destruct ((128 <=? cp)%N && Py.isalnum cp); [|discriminate].
    intros ->. split; [reflexivity | lia].
  - intros r b n. unfold Py.word_len. destruct r as [|c r]; [cbn; lia|].
    cbn [append]. change (String c (r ++ b)) with (String c r ++ b).
    destruct (Py.isword c); [auto|].
    destruct (Py.head_char (String c r ++ b)) as [[cp m]|] eqn:E; [|discriminate].
    destruct ((128 <=? cp)%N && Py.isalnum cp) eqn:S; [|discriminate]. intros -> L.
    rewrite (head_char_cut _ _ _ _ E) by lia. now rewrite S.
Qed.



(** A character of ASCII that is no word character starts no word
    character. *)
Lemma word_len_stop (c : ascii) (s : string) :
  (N_of_ascii c <? 128)%N = true -> Py.isword c = false ->
  Py.word_len (String c s) = 0.
Proof.
  intros A H. unfold Py.word_len, Py.head_char. rewrite H, A.
  apply N.ltb_lt in A.
  replace (128 <=? N_of_ascii c)%N with false; [reflexivity|].
  symmetry. apply N.leb_gt. exact A.
Qed.

Section Runs.

Variable tok : string -> nat.
Hypothesis tok_local : Py.local tok.

Lemma all_tok_length (s : string) :
  forall skip, Py.all_tok tok skip s = true -> skip <= String.length s.
Proof.
  induction s as [|c s IH]; intros skip H; cbn [Py.all_tok String.length] in *.
  - destruct skip; [lia | discriminate].
  - destruct skip as [|k]; [lia|]. apply IH in H. lia.
Qed.

(** Runs of characters of one kind join into a run. *)
Lemma all_tok_app (a b : string) :
  Py.all_tok tok 0 b = true ->
  forall skip, Py.all_tok tok skip a = true -> Py.all_tok tok skip (a ++ b) = true.
Proof.
  intros Hb. induction a as [|c a IH]; intros skip H.
  - cbn [Py.all_tok] in H. destruct skip; [exact Hb | discriminate].
  - cbn [append Py.all_tok] in *. destruct skip as [|k]; [|now apply IH].
    destruct (tok (String c a)) as [|k] eqn:E; [discriminate|].
    change (String c (a ++ b)) with (String c a ++ b).
    rewrite (proj1 (proj1 tok_local _ b _ E)). now apply IH.
Qed.

End Runs.

End CharacterFacts.

(* ================================================================== *)
(** * The matcher *)

Section MatcherFacts.

Import Re.

Context `{U : Py.Unicode}.

Lemma drop_lit_app (p s : string) : drop_lit p (p ++ s) = Some s.
Proof.
  induction p as [|a p IH]; simpl; [reflexivity|].
  now rewrite Ascii.eqb_refl.
Qed.

Lemma drop_lit_prefix (p s : string) : prefix p s = false -> drop_lit p s = None.
Proof.
  revert s. induction p as [|a p IH]; intros [|b s]; simpl; try discriminate; auto.
  destruct (ascii_dec a b) as [->|N].
  - rewrite Ascii.eqb_refl. apply IH.
  - intros _. apply Ascii.eqb_neq in N. now rewrite N.
Qed.

Lemma prefix_one (a b : ascii) (s : string) :
  prefix (String a "") (String b s) = Ascii.eqb a b.
Proof.
  cbn [prefix]. destruct (ascii_dec a b) as [->|N].
  - rewrite Ascii.eqb_refl. now destruct s.
  - apply Ascii.eqb_neq in N. now rewrite N.
Qed.

(** A literal without a line feed matches a text the same way whatever
    follows the text's next line feed. *)
Lemma drop_lit_nl (p s rest : string) :
  Py.all_chars Py.isdot p = true ->
  drop_lit p (s ++ Py.nl ++ rest) = option_map (fun u => u ++ Py.nl ++ rest) (drop_lit p s).
Proof.
  revert s. induction p as [|a p IH]; intros s Hp; [reflexivity|].
  simpl in Hp. apply andb_true_iff in Hp as [Ha Hp].
  destruct s as [|b s].
  - simpl. destruct (Ascii.eqb a "010") eqn:E; [|reflexivity].
    apply Ascii.eqb_eq in E. subst a. discriminate Ha.
  - simpl. destruct (Ascii.eqb a b); [|reflexivity]. now apply IH.
Qed.

(** With a rest of the pattern that cannot fail, the repetition takes
    all it can. *)
Lemma star_total {A} (c : ascii -> bool) (k : string -> string -> option A) :
  (forall m r, k m r <> None) ->
  forall s acc, star c acc s k = k (acc ++ Py.take_while c s) (Py.drop_while c s).
Proof.
  intros Hk. induction s as [|a s IH]; intros acc; simpl.
  - now rewrite app_nil_r.
  - destruct (c a) eqn:E.
    + rewrite IH, app_snoc.
      destruct (k (acc ++ String a (Py.take_while c s)) (Py.drop_while c s)) eqn:K;
        [reflexivity | now apply Hk in K].
    + now rewrite app_nil_r.
Qed.

(** The repetition stops at the first character outside the class when
    the rest of the pattern succeeds there. *)
Lemma star_stop {A} (c : ascii -> bool) (k : string -> string -> option A)
      (x : ascii) (r : string) :
  c x = false ->
  forall n acc,
    Py.all_chars c n = true ->
    k (acc ++ n) (String x r) <> None ->
    star c acc (n ++ String x r) k = k (acc ++ n) (String x r).
Proof.
  intros Hx. induction n as [|a n IH]; intros acc Hn Hk; simpl in *.
  - rewrite Hx. now rewrite app_nil_r.
  - apply andb_true_iff in Hn as [Ha Hn]. rewrite Ha.
    rewrite IH; rewrite ?app_snoc; auto.
    destruct (k (acc ++ String a n) (String x r)); [reflexivity | contradiction].
Qed.

(** Where no closing bracket is left, a rest of the pattern that needs
    one fails at every stop. *)
Lemma star_no_bracket {A} (c : ascii -> bool) (k : string -> string -> option A) :
  (forall m r, prefix "]" r = false -> k m r = None) ->
  forall t acc, Py.all_chars not_rbracket t = true -> star c acc t k = None.
Proof.
  intros Hk. induction t as [|a t IH]; intros acc Ht; simpl in *.
  - now apply Hk.
  - apply andb_true_iff in Ht as [Ha Ht].
    assert (K : k acc (String a t) = None).
    { apply Hk. rewrite prefix_one. unfold not_rbracket in Ha.
      rewrite Ascii.eqb_sym. now apply negb_true_iff. }
    destruct (c a); [rewrite IH by assumption|]; exact K.
Qed.

(** Greedy capture: the repetition backs off to the LAST closing bracket
    it can reach. *)
Lemma star_last_bracket {A} (c : ascii -> bool) (k : string -> string -> option A)
      (t : string) :
  c "]"%char = true ->
  (forall m r, prefix "]" r = false -> k m r = None) ->
  Py.all_chars not_rbracket t = true ->
  forall x acc,
    Py.all_chars c x = true ->
    k (acc ++ x) (String "]" t) <> None ->
    star c acc (x ++ String "]" t) k = k (acc ++ x) (String "]" t).
Proof.
  intros Hc Hk Ht. induction x as [|a x IH]; intros acc Hx Hsome; simpl in *.
  - rewrite Hc. rewrite (star_no_bracket c k Hk t _ Ht). now rewrite app_nil_r.
  - apply andb_true_iff in Hx as [Ha Hx]. rewrite Ha.
    rewrite IH; rewrite ?app_snoc; auto.
    destruct (k (acc ++ String a x) (String "]" t)); [reflexivity | contradiction].
Qed.

(** [re.match] with a pattern "literal, then the rest of the line". *)
Lemma re_match_line (p s : string) :
  re_match (Cat (Lit p) (Group (Star Dot))) s =
  option_map (fun u => [Py.take_while Py.isdot u]) (drop_lit p s).
Proof.
  unfold re_match. simpl. destruct (drop_lit p s) as [u|]; [|reflexivity].
  simpl. now rewrite star_total.
Qed.

Lemma re_match_line_nl (p s rest : string) :
  Py.all_chars Py.isdot p = true ->
  re_match (Cat (Lit p) (Group (Star Dot))) (s ++ Py.nl ++ rest) =
  re_match (Cat (Lit p) (Group (Star Dot))) s.
Proof.
  intros Hp. rewrite !re_match_line, drop_lit_nl by assumption.
  destruct (drop_lit p s) as [u|]; [|reflexivity].
  cbn [option_map]. now rewrite take_while_dot_nl.
Qed.

(** [re.search] with such a pattern does not look past the line of its
    first match. *)
Lemma re_search_line_nl (p s rest : string) :
  Py.all_chars Py.isdot p = true ->
  re_search (Cat (Lit p) (Group (Star Dot))) s <> None ->
  re_search (Cat (Lit p) (Group (Star Dot))) (s ++ Py.nl ++ rest) =
  re_search (Cat (Lit p) (Group (Star Dot))) s.
Proof.
  intros Hp. induction s as [|c s IH]; intros Hs.
  - destruct p as [|a p]; [reflexivity|].
    exfalso. apply Hs. reflexivity.
  - change ((String c s) ++ Py.nl ++ rest) with (String c (s ++ Py.nl ++ rest)).
    cbn [re_search].
    change (String c (s ++ Py.nl ++ rest)) with ((String c s) ++ Py.nl ++ rest).
    rewrite re_match_line_nl by assumption.
    destruct (re_match (Cat (Lit p) (Group (Star Dot))) (String c s)) eqn:E;
      [reflexivity|].
    apply IH. intros N. apply Hs. cbn [re_search]. now rewrite E.
Qed.

(** Without an occurrence of the literal there is no match. *)
Lemma re_search_line_none (p s : string) :
  Py.occurs p s = false -> re_search (Cat (Lit p) (Group (Star Dot))) s = None.
Proof.
  induction s as [|c s IH]; intros H; cbn [re_search Py.occurs] in *;
    apply orb_false_iff in H as [H1 H2];
    rewrite re_match_line, (drop_lit_prefix _ _ H1); simpl; auto.
Qed.

(** Where the literal starts the text, the first match is there. *)
Lemma re_search_line_here (p u : string) :
  re_search (Cat (Lit p) (Group (Star Dot))) (p ++ u) = Some [Py.take_while Py.isdot u].
Proof.
  destruct (p ++ u) eqn:E; cbn [re_search]; rewrite <- E;
    now rewrite re_match_line, drop_lit_app.
Qed.

(** The captured text of such a match holds no line feed. *)
Lemma re_search_line_dot (p s : string) (m : list string) :
  re_search (Cat (Lit p) (Group (Star Dot))) s = Some m ->
  Py.all_chars Py.isdot (group m 1) = true.
Proof.
  induction s as [|c s IH]; cbn [re_search]; rewrite re_match_line;
    destruct (drop_lit p _) as [u|]; cbn [option_map]; intros H;
    try (injection H as <-; apply take_while_all); try discriminate; auto.
Qed.

Section Repetition.

Variable tok : string -> nat.
Hypothesis tok_local : Py.local tok.

(** Over a run of characters of the class, followed by a text that
    starts no such character, the repetition takes the run when the
    rest of the pattern succeeds behind it. *)
Lemma star_tok_run {A} (k : string -> string -> option A) (tail : string) :
  tok tail = 0 ->
  forall name skip acc,
    Py.all_tok tok skip name = true ->
    k (acc ++ name) tail <> None ->
    star_tok tok skip acc (name ++ tail) k = k (acc ++ name) tail.
Proof.
  intros Htail. induction name as [|a name IH]; intros skip acc Hrun Hk.
  - cbn [Py.all_tok] in Hrun. destruct skip; [|discriminate Hrun].
    rewrite app_nil_r in *. cbn [append star_tok].
    destruct tail as [|x t]; cbn [star_tok]; [reflexivity | now rewrite Htail].
  - cbn [append Py.all_tok] in Hrun.
    assert (Go : forall n, Py.all_tok tok n name = true ->
                 star_tok tok n (acc ++ String a "") (name ++ tail) k
                 = k (acc ++ String a name) tail).
    { intros n Hn. rewrite IH; rewrite ?app_snoc; auto. }
    cbn [append star_tok]. destruct skip as [|n]; [|now apply Go].
    destruct (tok (String a name)) as [|n] eqn:E; [discriminate Hrun|].
    change (String a (name ++ tail)) with (String a name ++ tail).
    rewrite (proj1 (proj1 tok_local _ tail _ E)), (Go n Hrun).
    destruct (k (acc ++ String a name) tail); [reflexivity | contradiction].
Qed.

(** Where the repetition followed by the rest of the pattern succeeds,
    it has taken a run of characters of the class and the rest of the
    pattern has succeeded on what follows. *)
Lemma star_tok_sound {A} (k : string -> string -> option A) :
  forall s skip acc r,
    star_tok tok skip acc s k = Some r ->
    exists m rest,
      s = m ++ rest /\ Py.all_tok tok skip m = true /\ k (acc ++ m) rest = Some r.
Proof.
  induction s as [|a s IH]; intros skip acc r H.
  - destruct skip; cbn [star_tok] in H; [|discriminate H].
    exists "", "". rewrite (app_nil_r acc). repeat split. exact H.
  - assert (Go : forall n, star_tok tok n (acc ++ String a "") s k = Some r ->
                 exists m rest, String a s = String a m ++ rest
                                /\ Py.all_tok tok n m = true
                                /\ k (acc ++ String a m) rest = Some r).
    { intros n S. destruct (IH _ _ _ S) as (m & rest & -> & Hm & K).
      exists m, rest. rewrite app_snoc in K. repeat split; assumption. }
    assert (Stop : k acc (String a s) = Some r ->
                   exists m rest, String a s = m ++ rest
                                  /\ Py.all_tok tok 0 m = true
                                  /\ k (acc ++ m) rest = Some r).
    { intros K. exists "", (String a s). rewrite (app_nil_r acc).
      repeat split. exact K. }
    destruct skip as [|n]; cbn [star_tok] in H.
    + destruct (tok (String a s)) as [|n] eqn:E; [auto|].
      destruct (star_tok tok n (acc ++ String a "") s k) as [r'|] eqn:S; [|auto].
      injection H as ->. destruct (Go n S) as (m & rest & Es & Hm & K).
      exists (String a m), rest. repeat split; try assumption.
      cbn [Py.all_tok]. rewrite Es in E.
      rewrite (proj2 tok_local _ _ _ E); [exact Hm|].
      apply (all_tok_length tok) in Hm. cbn [String.length]. lia.
    + destruct (Go n H) as (m & rest & Es & Hm & K).
      exists (String a m), rest. repeat split; assumption.
Qed.

(** Where the rest of the pattern needs the character [b], which starts
    no character of the class, a repetition over a run followed by
    something else than [b] fails. *)
Lemma star_tok_needs {A} (k : string -> string -> option A) (b : ascii)
      (tail : string) :
  (forall r, tok (String b r) = 0) ->
  (forall m r, prefix (String b "") r = false -> k m r = None) ->
  tok tail = 0 ->
  prefix (String b "") tail = false ->
  forall name skip acc,
    Py.all_tok tok skip name = true -> star_tok tok skip acc (name ++ tail) k = None.
Proof.
  intros Hb Hk Hstop Htail. induction name as [|a name IH]; intros skip acc Hrun.
  - cbn [Py.all_tok] in Hrun. destruct skip; [|discriminate Hrun].
    cbn [append]. destruct tail as [|x t]; cbn [star_tok]; [now apply Hk|].
    rewrite Hstop. now apply Hk.
  - cbn [append Py.all_tok star_tok] in *. destruct skip as [|n]; [|now apply IH].
    destruct (tok (String a name)) as [|n] eqn:E; [discriminate Hrun|].
    change (String a (name ++ tail)) with (String a name ++ tail).
    rewrite (proj1 (proj1 tok_local _ tail _ E)), IH by assumption.
    apply Hk. cbn [append]. rewrite prefix_one.
    destruct (Ascii.eqb b a) eqn:B; [|reflexivity].
    apply Ascii.eqb_eq in B. subst a. rewrite Hb in E. discriminate E.
Qed.

End Repetition.

End MatcherFacts.

(* ================================================================== *)
(** * The parsers of the ReAct agent *)

Section ParserFacts.

Import Re ReAct.

Context `{U : Py.Unicode}.

(** Whether [p] starts a text is decided by the text's first
    [length p] characters. *)
Lemma prefix_app_long (p x y : string) :
  String.length p <= String.length x -> prefix p (x ++ y) = prefix p x.
Proof.
  revert x. induction p as [|a p IH]; intros x H.
  - destruct x; simpl; [now destruct y | reflexivity].
  - destruct x as [|b x]; simpl in H; [lia|].
    cbn [append prefix]. destruct (ascii_dec a b); [apply IH; lia | reflexivity].
Qed.

(** The first match of "literal, then the rest of the line": with no
    occurrence of the literal that starts before [pre] ends, the match
    is the one right after [pre]. *)
Lemma re_search_line_first (p' : string) (c : ascii) (pre u : string) :
  Py.occurs (p' ++ String c "") (pre ++ p') = false ->
  re_search (Cat (Lit (p' ++ String c "")) (Group (Star Dot)))
            (pre ++ (p' ++ String c "") ++ u)
  = Some [Py.take_while Py.isdot u].
Proof.
  induction pre as [|b pre IH]; intros H.
  - exact (re_search_line_here (p' ++ String c "") u).
  - change (String b pre ++ p') with (String b (pre ++ p')) in H.
    cbn [Py.occurs] in H. apply orb_false_iff in H as [H1 H2].
    change (String b pre ++ (p' ++ String c "") ++ u)
      with (String b (pre ++ (p' ++ String c "") ++ u)).
    cbn [re_search]. rewrite re_match_line.
    rewrite drop_lit_prefix; [cbn [option_map]; now apply IH|].
    change (String b (pre ++ (p' ++ String c "") ++ u))
      with (String b pre ++ (p' ++ String c "") ++ u).
    rewrite (app_assoc p'), <- (app_assoc (String b pre)).
    rewrite prefix_app_long; [exact H1|].
    rewrite !length_app. simpl. lia.
Qed.

Lemma re_search_line_some (p pre u : string) :
  re_search (Cat (Lit p) (Group (Star Dot))) (pre ++ p ++ u) <> None.
Proof.
  induction pre as [|b pre IH].
  - simpl append. now rewrite re_search_line_here.
  - change (String b pre ++ p ++ u) with (String b (pre ++ p ++ u)).
    cbn [re_search]. now destruct (re_match _ _).
Qed.

(** The action of [_parse_output]. *)
Lemma parse_output_action (text : string) :
  snd (_parse_output text) =
  option_map (fun m => Py.strip (group m 1)) (re_search action_re text).
Proof. reflexivity. Qed.

Lemma parse_output_thought (text : string) :
  fst (_parse_output text) =
  option_map (fun m => Py.strip (group m 1)) (re_search thought_re text).
Proof. reflexivity. Qed.

Lemma parse_output_no_action (text : string) :
  Py.occurs "Action: " text = false -> snd (_parse_output text) = None.
Proof.
  intros H. rewrite parse_output_action. unfold action_re.
  now rewrite re_search_line_none.
Qed.

(** An action never holds a line feed. *)
Lemma parse_output_action_dot (text action : string) :
  snd (_parse_output text) = Some action -> Py.all_chars Py.isdot action = true.
Proof.
  rewrite parse_output_action. unfold action_re.
  destruct (re_search _ text) as [m|] eqn:E; [|discriminate].
  cbn [option_map]. intros H. injection H as <-.
  apply strip_all. eapply re_search_line_dot. exact E.
Qed.

(** The rest of a pattern that opens with a closing bracket fails where
    the text does not go on with one. *)
Lemma needs_bracket {A} (f : string -> string -> option A) (m r : string) :
  prefix "]" r = false ->
  match drop_lit "]" r with
  | Some rest => f m rest
  | None => None
  end = None.
Proof.
  intros Hr. destruct r as [|x r]; [reflexivity|].
  rewrite prefix_one in Hr. cbn [drop_lit]. now rewrite Hr.
Qed.

(** [Finish[answer]], whatever follows the last closing bracket. *)
Lemma finish_match (answer tail : string) :
  Py.all_chars Py.isdot answer = true ->
  Py.all_chars not_rbracket tail = true ->
  re_match finish_re ("Finish[" ++ answer ++ "]" ++ tail) = Some [answer].
Proof.
  intros Ha Ht. unfold re_match, finish_re.
  cbn [exec]. rewrite (drop_lit_app "Finish[").
  change ("]" ++ tail) with (String "]" tail).
  rewrite star_last_bracket;
    [reflexivity | reflexivity | | exact Ht | exact Ha | discriminate].
  intros m r Hr. now apply (needs_bracket (fun _ _ => Some ([] ++ [m])%list)).
Qed.


(** [name[input]], whatever follows the last closing bracket. *)
Lemma tool_match (name input tail : string) :
  Py.all_word name = true ->
  Py.falsy name = false ->
  Py.all_chars Py.isdot input = true ->
  Py.all_chars not_rbracket tail = true ->
  _parse_action (name ++ "[" ++ input ++ "]" ++ tail) = (Some name, Some input).
Proof.
  intros Hn Hne Hi Ht. unfold _parse_action, re_match, tool_re.
  cbn [exec].
  assert (K : forall acc,
    star (in_class Dot) "" (input ++ String "]" tail)
      (fun m rest =>
         match drop_lit "]" rest with
         | Some rest0 => Some (([] ++ [acc]) ++ [m])%list
         | None => None
         end) = Some [acc; input]).
  { intros acc. rewrite star_last_bracket;
      [reflexivity | reflexivity | | exact Ht | exact Hi | discriminate].
    intros m r Hr.
    now apply (needs_bracket (fun _ _ => Some (([] ++ [acc]) ++ [m])%list)). }
  change ("[" ++ input ++ "]" ++ tail) with (String "[" (input ++ String "]" tail)).
  rewrite (star_tok_run Py.word_len word_len_local);
    [ | reflexivity | exact Hn | ]; cbn [append]; rewrite Hne;
    cbn [drop_lit]; rewrite Ascii.eqb_refl, K; [reflexivity | discriminate].
Qed.

End ParserFacts.

(* ================================================================== *)
(** * The ReAct loop *)

Section LoopFacts.

Import Client Tools ReAct.

Context `{U : Py.Unicode}.

Lemma skipn_since {A} (old new : list A) :
  skipn (List.length old) (old ++ new)%list = new.
Proof. induction old as [|x old IH]; simpl; auto. Qed.

Lemma step_eq (agent : ReActAgent) (question : string) (st : State) :
  step agent question st
  = act agent (response_at agent question st) (after_think agent question st).
Proof. reflexivity. Qed.

Lemma after_think_llm (agent : ReActAgent) (question : string) (st : State) :
  llm_calls (world (after_think agent question st))
  = (llm_calls (world st)
     ++ [(messages_at agent question st, response_at agent question st)])%list.
Proof. reflexivity. Qed.

Lemma after_think_tools (agent : ReActAgent) (question : string) (st : State) :
  tool_calls (world (after_think agent question st)) = tool_calls (world st).
Proof. reflexivity. Qed.

Lemma after_think_history (agent : ReActAgent) (question : string) (st : State) :
  history (after_think agent question st) = history st.
Proof. reflexivity. Qed.

Lemma act_acted (agent : ReActAgent) (response : option string) (st : State) :
  acted st (fst (act agent response st)) (snd (act agent response st)).
Proof.
  unfold act.
  destruct (Py.falsy_opt response); [constructor|].
  destruct (_parse_output (Py.or_empty response)) as [thought action_opt].
  destruct (Py.falsy_opt action_opt); [constructor|].
  destruct (Py.startswith (Py.or_empty action_opt) "Finish").
  { destruct (Re.re_match finish_re (Py.or_empty action_opt)); constructor. }
  destruct (_parse_action (Py.or_empty action_opt)) as [tool_name tool_input].
  destruct (Py.falsy_opt tool_name || Py.falsy_opt tool_input); [constructor|].
  destruct (getTool (toolExecutor agent) (Py.or_empty tool_name)); [|constructor].
  unfold call_tool. cbn [fst snd]. constructor.
Qed.

(** A pass that ends the run with an answer or an exception acted on a
    response whose action starts with [Finish]. *)
Lemma act_finish (agent : ReActAgent) (response : option string) (st : State) :
  match fst (act agent response st) with
  | Return _ | Raised _ => is_finish response = true
  | _ => True
  end.
Proof.
  unfold act, is_finish.
  destruct response as [text|]; cbn [Py.falsy_opt]; [|exact I].
  destruct (Py.falsy text); [exact I|]. cbn [Py.or_empty].
  destruct (_parse_output text) as [thought action_opt]. cbn [snd].
  destruct action_opt as [action|]; cbn [Py.falsy_opt]; [|exact I].
  destruct (Py.falsy action); [exact I|]. cbn [Py.or_empty].
  destruct (Py.startswith action "Finish") eqn:F.
  { destruct (Re.re_match finish_re action); cbn [fst]; reflexivity. }
  destruct (_parse_action action) as [tool_name tool_input].
  destruct (Py.falsy_opt tool_name || Py.falsy_opt tool_input); [exact I|].
  destruct (getTool _ _); [|exact I].
  destruct (call_tool _ _ _ _). exact I.
Qed.

Lemma loop_summarised (agent : ReActAgent) (question : string) :
  forall remaining st,
    loop_summary remaining st (fst (loop agent question remaining st))
                 (snd (loop agent question remaining st)).
Proof.
  induction remaining as [|n IH]; intros st.
  - cbn [loop fst snd]. apply (Summary _ _ _ _ [] []); cbn; rewrite ?List.app_nil_r; auto.
  - cbn [loop]. rewrite step_eq.
    pose proof (act_acted agent (response_at agent question st)
                          (after_think agent question st)) as Hact.
    pose proof (act_finish agent (response_at agent question st)
                           (after_think agent question st)) as Hfin.
    destruct (act agent (response_at agent question st)
                  (after_think agent question st)) as [f st1].
    cbn [fst snd] in Hact, Hfin.
    set (call := (messages_at agent question st, response_at agent question st)).
    inversion Hact as [f0 Hf Hst | action tn ti ob Hf Hst]; subst.
    + (* no tool was called *)
      destruct f as [| |ans|e]; cbn [fst snd].
      * destruct (IH (after_think agent question st)) as [nl nt E1 E2 B H F].
        apply (Summary _ _ _ _ (call :: nl) nt).
        -- rewrite E1, after_think_llm, <- List.app_assoc. reflexivity.
        -- rewrite E2. now rewrite after_think_tools.
        -- cbn. lia.
        -- rewrite H. reflexivity.
        -- cbn [forallb]. intros G. apply andb_true_iff in G as [_ G]. auto.
      * apply (Summary _ _ _ _ [call] []); rewrite ?List.app_nil_r;
          auto using after_think_llm; cbn; lia.
      * apply (Summary _ _ _ _ [call] []); rewrite ?List.app_nil_r;
          auto using after_think_llm; try (cbn; lia).
        cbn [forallb snd call]. rewrite Hfin. discriminate.
      * apply (Summary _ _ _ _ [call] []); rewrite ?List.app_nil_r;
          auto using after_think_llm; try (cbn; lia).
        cbn [forallb snd call]. rewrite Hfin. discriminate.
    + (* one tool was called *)
      cbn [fst snd].
      match goal with |- context [loop agent question n ?s] =>
        destruct (IH s) as [nl nt E1 E2 B H F] end.
      cbn [history world llm_calls tool_calls] in E1, E2, H.
      apply (Summary _ _ _ _ (call :: nl) ((tn, ti, ob) :: nt)).
      * rewrite E1, after_think_llm, <- List.app_assoc. reflexivity.
      * rewrite E2, after_think_tools, <- List.app_assoc. reflexivity.
      * cbn. lia.
      * rewrite H, List.length_app, after_think_history. cbn. lia.
      * cbn [forallb]. intros G. apply andb_true_iff in G as [_ G]. auto.
Qed.

End LoopFacts.

(* ================================================================== *)
(** * Properties of the ReAct agent *)

Section ReActClaims.

Import Client Tools ReAct.

Context `{U : Py.Unicode}.

Lemma tool_calls_since_same (st st' : State) :
  tool_calls (world st') = tool_calls (world st) -> tool_calls_since st st' = [].
Proof.
  intros E. unfold tool_calls_since. rewrite E.
  rewrite <- (List.app_nil_r (tool_calls (world st))) at 2. apply skipn_since.
Qed.

(** Acting on an empty or absent response, or on a text without an
    action, ends the loop and leaves the state alone. *)
Lemma act_nothing (agent : ReActAgent) (st : State) (response : option string) :
  Py.falsy_opt response = true -> act agent response st = (Break, st).
Proof. intros H. unfold act. now rewrite H. Qed.

Lemma act_no_action (agent : ReActAgent) (st : State) (text : string) :
  snd (_parse_output text) = None -> act agent (Some text) st = (Break, st).
Proof.
  intros H. unfold act. destruct (Py.falsy_opt (Some text)); [reflexivity|].
  cbn [Py.or_empty]. destruct (_parse_output text) as [thought action_opt].
  cbn [snd] in H. subst action_opt. reflexivity.
Qed.

Lemma act_finish_payload (agent : ReActAgent) (st : State) (text X : string) :
  snd (_parse_output text) = Some ("Finish[" ++ X ++ "]") ->
  act agent (Some text) st = (Return X, st).
Proof.
  intros H. pose proof (parse_output_action_dot _ _ H) as D.
  change ("Finish[" ++ X ++ "]") with ("Finish[" ++ (X ++ "]")) in D.
  rewrite all_chars_app in D. apply andb_true_iff in D as [_ D].
  rewrite all_chars_app in D. apply andb_true_iff in D as [D _].
  unfold act. destruct text as [|c text]; [discriminate H|].
  cbn [Py.falsy_opt Py.falsy Py.or_empty].
  destruct (_parse_output (String c text)) as [thought action_opt].
  cbn [snd] in H. subst action_opt.
  cbn [Py.falsy_opt Py.or_empty].
  change (Py.falsy ("Finish[" ++ X ++ "]")) with false. cbv iota.
  change (Py.startswith ("Finish[" ++ X ++ "]") "Finish") with
    (prefix "" (String "[" (X ++ "]"))).
  cbn [prefix].
  change ("Finish[" ++ X ++ "]") with ("Finish[" ++ X ++ "]" ++ "").
  rewrite finish_match by (assumption || reflexivity).
  reflexivity.
Qed.

(** What acting on a response does, told by the tool invocation the
    response leads to. *)
Lemma act_by_invocation (agent : ReActAgent) (response : option string) (st : State) :
  match tool_invocation agent response with
  | Some (action, tool_name, tool_input) =>
      exists tool_function,
        getTool (toolExecutor agent) tool_name = Some tool_function
        /\ act agent response st
           = (Continue,
              {| history :=
                   List.app (history st)
                     (lines action
                        (tool_function (List.length (tool_calls (world st))) tool_input));
                 world :=
                   {| llm_calls := llm_calls (world st);
                      tool_calls :=
                        List.app (tool_calls (world st))
                          [(tool_name, tool_input,
                            tool_function (List.length (tool_calls (world st)))
                                          tool_input)] |} |})
  | None => snd (act agent response st) = st
  end.
Proof.
  unfold tool_invocation, act. destruct response as [text|]; [|reflexivity].
  cbn [Py.falsy_opt Py.or_empty].
  destruct (_parse_output text) as [thought action_opt]. cbn [snd].
  destruct action_opt as [action|];
    [|destruct (Py.falsy text); reflexivity].
  destruct (Py.falsy text); [reflexivity|]. cbn [orb Py.falsy_opt Py.or_empty].
  destruct (Py.falsy action); [reflexivity|]. cbn [orb].
  destruct (Py.startswith action "Finish").
  { destruct (Re.re_match finish_re action); reflexivity. }
  destruct (_parse_action action) as [[tool_name|] [tool_input|]];
    cbn [Py.falsy_opt Py.or_empty orb]; try reflexivity;
    [|now destruct (Py.falsy tool_name)].
  destruct (Py.falsy tool_name || Py.falsy tool_input); [reflexivity|].
  destruct (getTool (toolExecutor agent) tool_name) as [f|] eqn:G; [|reflexivity].
  exists f. split; [exact G | reflexivity].
Qed.

Lemma invocations_app (agent : ReActAgent)
      (a b : list (list Message * option string)) :
  invocations agent (List.app a b) = invocations agent a + invocations agent b.
Proof. unfold invocations. now rewrite List.filter_app, List.length_app. Qed.

(** The history of the loop against the tool invocations among the
    model calls it made. *)
Lemma loop_history (agent : ReActAgent) (question : string) :
  forall remaining st,
    exists new,
      llm_calls (world (snd (loop agent question remaining st)))
      = List.app (llm_calls (world st)) new
      /\ List.length (history (snd (loop agent question remaining st)))
         = List.length (history st) + 2 * invocations agent new.
Proof.
  induction remaining as [|n IH]; intros st.
  - exists []. cbn [loop snd]. rewrite List.app_nil_r. split; [reflexivity | cbn; lia].
  - cbn [loop]. rewrite step_eq.
    pose proof (act_by_invocation agent (response_at agent question st)
                                  (after_think agent question st)) as Hact.
    set (call := (messages_at agent question st, response_at agent question st)).
    assert (One : invocations agent [call]
                  = match tool_invocation agent (response_at agent question st) with
                    | Some _ => 1
                    | None => 0
                    end).
    { unfold invocations, call. cbn [filter snd].
      now destruct (tool_invocation agent (response_at agent question st)). }
    destruct (tool_invocation agent (response_at agent question st))
      as [[[action tool_name] tool_input]|].
    + destruct Hact as (f & _ & ->).
      match goal with |- context [loop agent question n ?s] =>
        destruct (IH s) as (new & E & H) end.
      cbn [history world llm_calls] in E, H.
      exists (call :: new). cbn [fst snd]. split.
      * rewrite E, after_think_llm, <- List.app_assoc. reflexivity.
      * rewrite H, List.length_app, after_think_history.
        change (call :: new) with (List.app [call] new).
        rewrite invocations_app, One. cbn [List.length lines]. lia.
    + destruct (act agent (response_at agent question st)
                    (after_think agent question st)) as [f st1].
      cbn [snd] in Hact. subst st1.
      assert (Stop : exists new,
                 llm_calls (world (after_think agent question st))
                 = List.app (llm_calls (world st)) new
                 /\ List.length (history (after_think agent question st))
                    = List.length (history st) + 2 * invocations agent new).
      { exists [call]. rewrite after_think_llm, after_think_history, One.
        split; [reflexivity | lia]. }
      destruct f; cbn [fst snd]; try exact Stop.
      destruct (IH (after_think agent question st)) as (new & E & H).
      exists (call :: new). split.
      * rewrite E, after_think_llm, <- List.app_assoc. reflexivity.
      * rewrite H, after_think_history.
        change (call :: new) with (List.app [call] new).
        rewrite invocations_app, One. lia.
Qed.

(** C1. In a ReAct run the history grows by exactly two entries, an
    [Action: ...] line followed by an [Observation: ...] line, in a pass
    that is a successful tool invocation: the response has an action
    that is no [Finish] and decomposes into a name and an input, and the
    registry knows the tool.  It grows by none in any other pass, so on
    a [Finish], on a response without an action and on an action that
    does not decompose.  So at the end of a run the history holds twice
    as many entries as there were successful tool invocations among the
    model's responses. *)
Theorem C1_history_grows_by_two_per_tool_call
        (agent : ReActAgent) (question : string) (st : State) :
  match tool_invocation agent (response_at agent question st) with
  | Some (action, tool_name, tool_input) =>
      exists tool_function,
        getTool (toolExecutor agent) tool_name = Some tool_function
        /\ let observation :=
             tool_function (List.length (tool_calls (world st))) tool_input in
           step agent question st
           = (Continue,
              {| history :=
                   List.app (history st)
                            ["Action: " ++ action; "Observation: " ++ observation];
                 world :=
                   {| llm_calls :=
                        List.app (llm_calls (world st))
                                 [(messages_at agent question st,
                                   response_at agent question st)];
                      tool_calls :=
                        List.app (tool_calls (world st))
                                 [(tool_name, tool_input, observation)] |} |})
  | None =>
      history (snd (step agent question st)) = history st
      /\ tool_calls (world (snd (step agent question st))) = tool_calls (world st)
  end
  /\ (forall response, is_finish response = true ->
                       tool_invocation agent response = None)
  /\ (forall text, snd (_parse_output text) = None ->
                   tool_invocation agent (Some text) = None)
  /\ (forall text action,
         snd (_parse_output text) = Some action ->
         _parse_action action = (None, None) ->
         tool_invocation agent (Some text) = None)
  /\ List.length (history (snd (run agent question st)))
     = 2 * invocations agent (llm_calls_since st (snd (run agent question st))).
Proof.
  split; [|split; [|split; [|split]]].
  - rewrite step_eq.
    pose proof (act_by_invocation agent (response_at agent question st)
                                  (after_think agent question st)) as Hact.
    destruct (tool_invocation agent (response_at agent question st))
      as [[[action tool_name] tool_input]|].
    + destruct Hact as (f & G & E). exists f. split; [exact G|]. exact E.
    + rewrite Hact. split; reflexivity.
  - intros response H. unfold is_finish in H. unfold tool_invocation.
    destruct response as [text|]; [|reflexivity].
    destruct (snd (_parse_output text)) as [action|]; [|reflexivity].
    rewrite H. now rewrite !orb_true_r.
  - intros text H. unfold tool_invocation. now rewrite H.
  - intros text action H P. unfold tool_invocation. rewrite H, P.
    now destruct (Py.falsy text || Py.falsy action || Py.startswith action "Finish").
  - unfold run.
    destruct (loop_history agent question (Z.to_nat (maxSteps agent)) (reset st))
      as (new & E & H).
    rewrite H. unfold llm_calls_since. rewrite E.
    cbn [reset world history List.length]. now rewrite skipn_since.
Qed.

(** C2, on the code: an action naming a tool that is not registered
    uses up a pass of the loop (a second model call follows), but
    nothing is added to the history; the error observation is built and
    dropped. *)
Theorem C2_missing_tool_leaves_no_trace :
  let r := run (agent_of [says "Action: foo[bar]"] empty_registry 5) "q" fresh in
  fst r = Returned None
  /\ history (snd r) = []
  /\ List.length (llm_calls (world (snd r))) = 2.
Proof. vm_compute. repeat split. Qed.

(** C3. When the action parsed from the response is [Finish[X]], the
    loop stops in that pass and [run] returns exactly [X]: the state is
    the one right after the model call, with no tool called and the
    history as it was.  [X] may itself hold brackets. *)
Theorem C3_finish_returns_payload
        (agent : ReActAgent) (question : string) (remaining : nat) (st : State)
        (text X : string) :
  response_at agent question st = Some text ->
  snd (_parse_output text) = Some ("Finish[" ++ X ++ "]") ->
  loop agent question (S remaining) st
    = (Returned (Some X), after_think agent question st)
  /\ history (after_think agent question st) = history st
  /\ tool_calls (world (after_think agent question st)) = tool_calls (world st).
Proof.
  intros Hr Ha. split; [|split; reflexivity].
  cbn [loop]. rewrite step_eq, Hr.
  now rewrite (act_finish_payload _ _ _ _ Ha).
Qed.

(** C4, on the code: an action that starts with [Finish] but has no
    bracketed payload makes [run] raise; the failed match is used
    without a check. *)
Theorem C4_finish_without_payload_raises :
  fst (run (agent_of [says "Action: Finish"] empty_registry 5) "q" fresh)
  = Raises AttributeError.
Proof. vm_compute. reflexivity. Qed.

(** C5. When the model call returns no result, or the response holds no
    [Action: ] for the parser to find, the loop ends in that pass
    whatever is left of the budget: [run] returns [None] and the history
    is the one the pass started with, so an empty one when this is the
    first pass of a run. *)
Theorem C5_no_response_or_no_action_aborts
        (agent : ReActAgent) (question : string) (remaining : nat) (st : State) :
  (response_at agent question st = None
   \/ exists text, response_at agent question st = Some text
                   /\ Py.occurs "Action: " text = false) ->
  loop agent question (S remaining) st
    = (Returned None, after_think agent question st)
  /\ history (after_think agent question st) = history st
  /\ (history st = [] -> (0 < maxSteps agent)%Z ->
      fst (run agent question st) = Returned None
      /\ history (snd (run agent question st)) = []).
Proof.
  intros H.
  assert (L : forall n, loop agent question (S n) st
                        = (Returned None, after_think agent question st)).
  { intros n. cbn [loop]. rewrite step_eq.
    destruct H as [H | (text & H & Hno)]; rewrite H.
    - now rewrite act_nothing.
    - now rewrite act_no_action by now apply parse_output_no_action. }
  split; [apply L | split; [reflexivity|]].
  intros Hst Hpos. unfold run.
  assert (R : reset st = st) by (destruct st; cbn in Hst; now subst).
  rewrite R.
  destruct (Z.to_nat (maxSteps agent)) as [|n] eqn:E; [lia|].
  rewrite L. cbn [fst snd]. rewrite after_think_history. now split.
Qed.

(** Acting on a response looks at its action only. *)
Lemma act_by_action (agent : ReActAgent) (st : State) (text1 text2 : string) :
  Py.falsy text1 = Py.falsy text2 ->
  snd (_parse_output text1) = snd (_parse_output text2) ->
  act agent (Some text1) st = act agent (Some text2) st.
Proof.
  intros F H. unfold act. cbn [Py.falsy_opt Py.or_empty]. rewrite F.
  destruct (_parse_output text1) as [th1 ac1], (_parse_output text2) as [th2 ac2].
  cbn [snd] in H. now subst ac2.
Qed.

(** C8, as the code has it.  Each pattern uses its first match only: the
    action (the thought) is what follows the leftmost [Action: ]
    ([Thought: ]) up to the end of that line, stripped of white space at
    both ends.  What comes after the line of the first [Action: ], a
    second [Action: ] line included, counts neither for the action nor
    for what the pass does.  The payload of a tool call is captured
    greedily: it runs from the bracket after the name to the LAST
    closing bracket of the action, so a payload that holds a closing
    bracket is found whole, with the tool name. *)
Theorem C8_first_match_and_greedy_payload :
  (forall pre line rest,
      Py.occurs "Action: " (pre ++ "Action:") = false ->
      Py.all_chars Py.isdot line = true ->
      snd (_parse_output (pre ++ "Action: " ++ line ++ Py.nl ++ rest))
      = Some (Py.strip line))
  /\ (forall pre line rest,
      Py.occurs "Thought: " (pre ++ "Thought:") = false ->
      Py.all_chars Py.isdot line = true ->
      fst (_parse_output (pre ++ "Thought: " ++ line ++ Py.nl ++ rest))
      = Some (Py.strip line))
  /\ (forall pre line rest,
      snd (_parse_output (pre ++ "Action: " ++ line ++ Py.nl ++ rest))
      = snd (_parse_output (pre ++ "Action: " ++ line)))
  /\ (forall agent st pre line rest,
      act agent (Some (pre ++ "Action: " ++ line ++ Py.nl ++ rest)) st
      = act agent (Some (pre ++ "Action: " ++ line)) st)
  /\ (forall name input tail,
      Py.all_word name = true ->
      Py.falsy name = false ->
      Py.all_chars Py.isdot input = true ->
      Py.all_chars Re.not_rbracket tail = true ->
      _parse_action (name ++ "[" ++ input ++ "]" ++ tail) = (Some name, Some input)).
Proof.
  assert (Same : forall pre line rest,
             snd (_parse_output (pre ++ "Action: " ++ line ++ Py.nl ++ rest))
             = snd (_parse_output (pre ++ "Action: " ++ line))).
  { intros pre line rest. rewrite !parse_output_action. unfold action_re.
    replace (pre ++ "Action: " ++ line ++ Py.nl ++ rest)
      with ((pre ++ "Action: " ++ line) ++ Py.nl ++ rest)
      by now rewrite !app_assoc.
    rewrite re_search_line_nl; [reflexivity | reflexivity |].
    apply re_search_line_some. }
  split; [|split; [|split; [exact Same | split]]].
  - intros pre line rest Hpre Hline. rewrite parse_output_action.
    pose proof (re_search_line_first "Action:" " " pre (line ++ Py.nl ++ rest) Hpre) as E.
    change (Re.re_search action_re (pre ++ "Action: " ++ line ++ Py.nl ++ rest)
            = Some [Py.take_while Py.isdot (line ++ Py.nl ++ rest)]) in E.
    rewrite E. cbn [option_map Re.group Nat.sub nth]. f_equal. f_equal.
    now apply take_while_stop.
  - intros pre line rest Hpre Hline. rewrite parse_output_thought.
    pose proof (re_search_line_first "Thought:" " " pre (line ++ Py.nl ++ rest) Hpre) as E.
    change (Re.re_search thought_re (pre ++ "Thought: " ++ line ++ Py.nl ++ rest)
            = Some [Py.take_while Py.isdot (line ++ Py.nl ++ rest)]) in E.
    rewrite E. cbn [option_map Re.group Nat.sub nth]. f_equal. f_equal.
    now apply take_while_stop.
  - intros agent st pre line rest. apply act_by_action; [|apply Same].
    destruct pre; reflexivity.
  - intros name input tail. apply tool_match.
Qed.

(** C9. A run makes at most [maxSteps] model calls, one per pass of the
    loop, and then ends; when none of the responses it got had an action
    starting with [Finish], it returns [None]. *)
Theorem C9_step_budget (agent : ReActAgent) (question : string) (st : State) :
  (Z.of_nat (List.length (llm_calls_since st (snd (run agent question st))))
   <= Z.max 0 (maxSteps agent))%Z
  /\ (forallb (fun c => negb (is_finish (snd c)))
              (llm_calls_since st (snd (run agent question st))) = true ->
      fst (run agent question st) = Returned None).
Proof.
  unfold run.
  destruct (loop_summarised agent question (Z.to_nat (maxSteps agent)) (reset st))
    as [nl nt E1 _ B _ F].
  unfold llm_calls_since. rewrite E1. cbn [reset world].
  rewrite skipn_since. split; [lia | exact F].
Qed.

(** A stream without content is a valid response, the empty text. *)
Lemma think_silent_stream (llm : HelloAgentsLLM) (messages : list Message) (w : World) :
  client llm (List.length (llm_calls w)) messages = Stream [] ->
  fst (think llm messages w) = Some "".
Proof. intros H. unfold think. now rewrite H. Qed.

(** C10. An empty response is treated like a failed model call: the loop
    ends in that pass, [run] returns [None] and the history is as it
    was, which is just what a failed call gives. *)
Theorem C10_empty_response_is_no_response
        (agent : ReActAgent) (question : string) (remaining : nat) (st : State) :
  response_at agent question st = Some "" ->
  loop agent question (S remaining) st
    = (Returned None, after_think agent question st)
  /\ history (after_think agent question st) = history st
  /\ forall agent',
      response_at agent' question st = None ->
      fst (loop agent' question (S remaining) st)
        = fst (loop agent question (S remaining) st)
      /\ history (snd (loop agent' question (S remaining) st))
         = history (snd (loop agent question (S remaining) st)).
Proof.
  intros H.
  assert (L : loop agent question (S remaining) st
              = (Returned None, after_think agent question st)).
  { cbn [loop]. rewrite step_eq, H. now rewrite act_nothing. }
  split; [exact L | split; [reflexivity|]].
  intros agent' H'. rewrite L. cbn [loop]. rewrite step_eq, H'.
  rewrite act_nothing by reflexivity. now split.
Qed.

End ReActClaims.

(* ================================================================== *)
(** * Splitting at a separator *)

Section SplitFacts.

Lemma prefix_app (p r : string) : prefix p (p ++ r) = true.
Proof.
  induction p as [|a p IH]; simpl; [now destruct r|].
  destruct (ascii_dec a a); [exact IH | contradiction].
Qed.

(** A text without the separator is one piece. *)
Lemma split_from_none (sep : string) :
  forall s cur, Py.occurs sep s = false -> Py.split_from sep cur 0 s = [cur ++ s].
Proof.
  induction s as [|c s IH]; intros cur H.
  - cbn. now rewrite app_nil_r.
  - cbn [Py.occurs] in H. apply orb_false_iff in H as [H1 H2].
    cbn [Py.split_from]. rewrite H1, IH by assumption. now rewrite app_snoc.
Qed.

(** The characters of a separator just found are passed over. *)
Lemma split_from_skip (sep : string) :
  forall x cur rest,
    Py.split_from sep cur (String.length x) (x ++ rest) = Py.split_from sep cur 0 rest.
Proof.
  induction x as [|c x IH]; intros cur rest; [reflexivity|].
  cbn [String.length append Py.split_from]. apply IH.
Qed.

Lemma prefix_cons (a b : ascii) (p s : string) :
  prefix (String a p) (String b s) = Ascii.eqb a b && prefix p s.
Proof.
  cbn [prefix]. destruct (ascii_dec a b) as [->|N].
  - now rewrite Ascii.eqb_refl.
  - apply Ascii.eqb_neq in N. now rewrite N.
Qed.

(** A text without the separator's first character holds no separator. *)
Lemma occurs_no_first (b : ascii) (p s : string) :
  Py.all_chars (fun c => negb (Ascii.eqb c b)) s = true ->
  Py.occurs (String b p) s = false.
Proof.
  induction s as [|c s IH]; intros H; [reflexivity|].
  cbn [Py.all_chars] in H. apply andb_true_iff in H as [Hc H].
  cbn [Py.occurs]. rewrite prefix_cons, IH by assumption.
  rewrite Ascii.eqb_sym. apply negb_true_iff in Hc. now rewrite Hc.
Qed.

(** Characters that cannot start the separator go to the current piece. *)
Lemma split_from_pre (b : ascii) (sep' : string) :
  forall pre cur rest,
    Py.all_chars (fun c => negb (Ascii.eqb c b)) pre = true ->
    Py.split_from (String b sep') cur 0 (pre ++ rest)
    = Py.split_from (String b sep') (cur ++ pre) 0 rest.
Proof.
  induction pre as [|c pre IH]; intros cur rest H.
  - now rewrite app_nil_r.
  - cbn [Py.all_chars] in H. apply andb_true_iff in H as [Hc H].
    cbn [append Py.split_from prefix].
    destruct (ascii_dec b c) as [->|N].
    + rewrite Ascii.eqb_refl in Hc. discriminate Hc.
    + rewrite IH by assumption. now rewrite app_snoc.
Qed.

(** At the separator the current piece ends and the next one begins
    after it. *)
Lemma split_from_sep (b : ascii) (sep' cur rest : string) :
  Py.split_from (String b sep') cur 0 (String b sep' ++ rest)
  = cur :: Py.split_from (String b sep') "" 0 rest.
Proof.
  cbn [append Py.split_from].
  change (String b (sep' ++ rest)) with (String b sep' ++ rest).
  rewrite prefix_app. cbn [String.length Nat.sub]. rewrite Nat.sub_0_r.
  now rewrite split_from_skip.
Qed.

(** The first piece starts with what was collected so far. *)
Lemma split_from_head (sep : string) :
  forall s cur k, exists z more, Py.split_from sep cur k s = (cur ++ z) :: more.
Proof.
  induction s as [|c s IH]; intros cur k.
  - exists "", []. cbn. now rewrite app_nil_r.
  - cbn [Py.split_from]. destruct k as [|k]; [|apply IH].
    destruct (prefix sep (String c s)).
    + exists "". eexists. now rewrite app_nil_r.
    + destruct (IH (cur ++ String c "") 0) as (z & more & E).
      exists (String c z), more. now rewrite E, app_snoc.
Qed.

Lemma split_from_step (sep cur : string) (c : ascii) (s : string) :
  Py.split_from sep cur 0 (String c s)
  = if prefix sep (String c s)
    then cur :: Py.split_from sep "" (String.length sep - 1) s
    else Py.split_from sep (cur ++ String c "") 0 s.
Proof. reflexivity. Qed.

Lemma prefix_first (b : ascii) (p s : string) :
  prefix (String b "") s = false -> prefix (String b p) s = false.
Proof.
  destruct s as [|c s]; [reflexivity|].
  rewrite prefix_one, prefix_cons. now intros ->.
Qed.

(** After a body without a backtick and its closing fence, with no
    backtick right behind the fence, the piece up to the next opening
    fence is the body alone or the body with the closing fence and
    more. *)
Lemma split_closing_fence (body post : string) :
  Py.all_chars Py.no_backtick body = true ->
  prefix "`" post = false ->
  exists z more,
    Py.split_from "```python" "" 0 (body ++ "```" ++ post) = (body ++ z) :: more
    /\ (z = "" \/ exists z', z = "```" ++ z').
Proof.
  intros Hbody Hpost.
  rewrite (split_from_pre "`" "``python" body "" _ Hbody).
  change ("" ++ body) with body.
  change ("```" ++ post) with (String "`" (String "`" (String "`" post))).
  rewrite split_from_step.
  destruct (prefix _ (String "`" (String "`" (String "`" post)))).
  { exists "". eexists. rewrite app_nil_r. split; [reflexivity | now left]. }
  rewrite split_from_step, !prefix_cons, (prefix_first _ _ _ Hpost), !andb_false_r.
  rewrite split_from_step, !prefix_cons, (prefix_first _ _ _ Hpost), !andb_false_r.
  destruct (split_from_head "```python" post (((body ++ "`") ++ "`") ++ "`") 0)
    as (z & more & E).
  rewrite E. exists ("```" ++ z), more.
  split; [|right; now eexists].
  now rewrite !app_assoc.
Qed.

(** The text between the fences: before the opening fence and between
    the fences there is no backtick, and none right after the closing
    fence. *)
Lemma fenced_block (pre body post : string) :
  Py.all_chars Py.no_backtick pre = true ->
  Py.all_chars Py.no_backtick body = true ->
  prefix "`" post = false ->
  PlanSolve.fenced (pre ++ "```python" ++ body ++ "```" ++ post) = Some (Py.strip body).
Proof.
  intros Hpre Hbody Hpost. unfold PlanSolve.fenced, Py.split.
  rewrite (split_from_pre "`" "``python" pre "" _ Hpre).
  rewrite (split_from_sep "`" "``python").
  cbn [nth_error].
  destruct (split_closing_fence body post Hbody Hpost) as (z & more & E & Hz).
  change (String "`" "``python") with "```python". rewrite E.
  assert (B : exists more', Py.split_from "```" "" 0 (body ++ z) = body :: more').
  { destruct Hz as [-> | (z' & ->)].
    - rewrite app_nil_r. rewrite split_from_none; [now exists []|].
      now apply (occurs_no_first "`" "``").
    - rewrite (split_from_pre "`" "``" body "" _ Hbody).
      rewrite (split_from_sep "`" "``"). now eexists. }
  destruct B as (more' & ->). reflexivity.
Qed.

(** Without an opening fence there is nothing between fences. *)
Lemma fenced_missing (response_text : string) :
  Py.occurs "```python" response_text = false ->
  PlanSolve.fenced response_text = None.
Proof.
  intros H. unfold PlanSolve.fenced, Py.split.
  now rewrite split_from_none.
Qed.

(** A match of a longer pattern is a match of its beginning. *)
Lemma prefix_app_l (p t s : string) : prefix (p ++ t) s = true -> prefix p s = true.
Proof.
  revert s. induction p as [|a p IH]; intros s H; [now destruct s|].
  destruct s as [|b s]; [discriminate H|].
  cbn [append] in H. rewrite prefix_cons in *.
  apply andb_true_iff in H as [H1 H2]. rewrite H1. now apply IH.
Qed.

Lemma prefix_app_r (p a b : string) : prefix p a = true -> prefix p (a ++ b) = true.
Proof.
  revert a. induction p as [|x p IH]; intros a H; [now destruct (a ++ b)|].
  destruct a as [|y a]; [discriminate H|].
  cbn [append]. rewrite prefix_cons in *.
  apply andb_true_iff in H as [H1 H2]. rewrite H1. now apply IH.
Qed.

Lemma occurs_app_l (p a b : string) :
  Py.occurs p (a ++ b) = false -> Py.occurs p a = false.
Proof.
  induction a as [|c a IH]; intros H.
  - cbn [append] in H. cbn [Py.occurs]. rewrite orb_false_r.
    destruct (prefix p "") eqn:E; [|reflexivity].
    apply (prefix_app_r p "" b) in E. cbn [append] in E.
    destruct b; cbn [Py.occurs] in H; apply orb_false_iff in H as [H _]; congruence.
  - cbn [append Py.occurs] in H. apply orb_false_iff in H as [H1 H2].
    cbn [Py.occurs]. rewrite (IH H2), orb_false_r.
    destruct (prefix p (String c a)) eqn:E; [|reflexivity].
    apply (prefix_app_r p _ b) in E. cbn [append] in E. congruence.
Qed.

Lemma occurs_longer (p t s : string) :
  Py.occurs p s = false -> Py.occurs (p ++ t) s = false.
Proof.
  induction s as [|c s IH]; intros H.
  - cbn [Py.occurs] in *. rewrite orb_false_r in *.
    destruct (prefix (p ++ t) "") eqn:E; [|reflexivity].
    apply prefix_app_l in E. congruence.
  - cbn [Py.occurs] in *. apply orb_false_iff in H as [H1 H2].
    rewrite (IH H2), orb_false_r.
    destruct (prefix (p ++ t) (String c s)) eqn:E; [|reflexivity].
    apply prefix_app_l in E. congruence.
Qed.

(** What stands before the first occurrence of the beginning of the
    separator goes to the current piece. *)
Lemma split_from_before (p' : string) (c : ascii) (t : string) :
  forall pre cur rest,
    Py.occurs (p' ++ String c "") (pre ++ p') = false ->
    Py.split_from ((p' ++ String c "") ++ t) cur 0 (pre ++ (p' ++ String c "") ++ rest)
    = Py.split_from ((p' ++ String c "") ++ t) (cur ++ pre) 0
                    ((p' ++ String c "") ++ rest).
Proof.
  induction pre as [|b pre IH]; intros cur rest H.
  - now rewrite app_nil_r.
  - change (String b pre ++ p') with (String b (pre ++ p')) in H.
    cbn [Py.occurs] in H. apply orb_false_iff in H as [H1 H2].
    change (String b pre ++ (p' ++ String c "") ++ rest)
      with (String b (pre ++ (p' ++ String c "") ++ rest)).
    rewrite split_from_step.
    destruct (prefix ((p' ++ String c "") ++ t)
                     (String b (pre ++ (p' ++ String c "") ++ rest))) eqn:E.
    + apply prefix_app_l in E.
      change (String b (pre ++ (p' ++ String c "") ++ rest))
        with (String b pre ++ (p' ++ String c "") ++ rest) in E.
      rewrite (app_assoc p'), <- (app_assoc (String b pre)) in E.
      rewrite prefix_app_long in E;
        [change (String b pre ++ p') with (String b (pre ++ p')) in E; congruence|].
      rewrite !length_app. cbn [String.length]. lia.
    + rewrite IH by exact H2. now rewrite (app_snoc cur b pre).
Qed.

Lemma split_from_here (sep cur rest : string) :
  Py.falsy sep = false ->
  Py.split_from sep cur 0 (sep ++ rest) = cur :: Py.split_from sep "" 0 rest.
Proof. destruct sep as [|b sep']; [discriminate|]. intros _. apply split_from_sep. Qed.

(** The pieces around the first occurrence of the separator. *)
Lemma split_from_first (p' : string) (c : ascii) (pre cur rest : string) :
  Py.occurs (p' ++ String c "") (pre ++ p') = false ->
  Py.split_from (p' ++ String c "") cur 0 (pre ++ (p' ++ String c "") ++ rest)
  = (cur ++ pre) :: Py.split_from (p' ++ String c "") "" 0 rest.
Proof.
  intros H. pose proof (split_from_before p' c "" pre cur rest H) as E.
  rewrite app_nil_r in E. rewrite E. apply split_from_here. now destruct p'.
Qed.

(** After a body that holds no closing fence, and a closing fence in
    which no opening fence starts, the piece up to the next opening
    fence is the body alone or the body with the closing fence and
    more. *)
Lemma split_first_closing_fence (body post : string) :
  Py.occurs "```" (body ++ "``") = false ->
  prefix "```python" ("``" ++ post) = false ->
  prefix "```python" ("`" ++ post) = false ->
  exists z more,
    Py.split_from "```python" "" 0 (body ++ "```" ++ post) = (body ++ z) :: more
    /\ (z = "" \/ exists z', z = "```" ++ z').
Proof.
  intros Hbody H2 H1.
  pose proof (split_from_before "``" "`" "python" body "" post Hbody) as E0.
  cbn [append] in E0, H1, H2 |- *. rewrite E0.
  rewrite split_from_step.
  destruct (prefix "```python" (String "`" (String "`" (String "`" post)))).
  { exists "". eexists. rewrite app_nil_r. split; [reflexivity | now left]. }
  rewrite split_from_step, H2, split_from_step, H1.
  destruct (split_from_head "```python" post (((body ++ "`") ++ "`") ++ "`") 0)
    as (z & more & E).
  rewrite E. exists ("```" ++ z), more.
  split; [|right; now eexists].
  now rewrite !app_assoc.
Qed.

(** The text between the fences: the first opening fence, the first
    closing fence behind it. *)
Lemma fenced_first (pre body post : string) :
  Py.occurs "```python" (pre ++ "```pytho") = false ->
  Py.occurs "```" (body ++ "``") = false ->
  prefix "```python" ("``" ++ post) = false ->
  prefix "```python" ("`" ++ post) = false ->
  PlanSolve.fenced (pre ++ "```python" ++ body ++ "```" ++ post) = Some (Py.strip body).
Proof.
  intros Hpre Hbody H2 H1. unfold PlanSolve.fenced, Py.split.
  rewrite (split_from_first "```pytho" "n" pre "" _ Hpre).
  cbn [nth_error].
  destruct (split_first_closing_fence body post Hbody H2 H1) as (z & more & E & Hz).
  change ("```pytho" ++ "n") with "```python". rewrite E.
  assert (B : exists more', Py.split_from "```" "" 0 (body ++ z) = body :: more').
  { destruct Hz as [-> | (z' & ->)].
    - rewrite app_nil_r. rewrite split_from_none; [now exists []|].
      now apply occurs_app_l in Hbody.
    - pose proof (split_from_first "``" "`" body "" z' Hbody) as E1.
      cbn [append] in E1 |- *. rewrite E1. now eexists. }
  destruct B as (more' & ->). reflexivity.
Qed.

(** An opening fence that is never closed: all that follows it is
    taken. *)
Lemma fenced_unclosed (pre body : string) :
  Py.occurs "```python" (pre ++ "```pytho") = false ->
  Py.occurs "```" body = false ->
  PlanSolve.fenced (pre ++ "```python" ++ body) = Some (Py.strip body).
Proof.
  intros Hpre Hbody. unfold PlanSolve.fenced, Py.split.
  rewrite (split_from_first "```pytho" "n" pre "" _ Hpre).
  cbn [nth_error]. change ("```pytho" ++ "n") with "```python".
  rewrite (split_from_none _ body "")
    by exact (occurs_longer "```" "python" body Hbody).
  cbn [append nth_error].
  now rewrite (split_from_none _ body "") by exact Hbody.
Qed.

End SplitFacts.

(* ================================================================== *)
(** * Properties of the planner *)

Section PlannerClaims.

Import Client PlanSolve.

Lemma plan_eq (llm_client : HelloAgentsLLM) (bi : Builtins) (question : string)
      (w : World) :
  plan llm_client bi question w
  = (parse_plan bi (Py.or_empty (fst (think llm_client (plan_messages question) w))),
     snd (think llm_client (plan_messages question) w)).
Proof. reflexivity. Qed.

(** What the planner makes of the text it found between the fences. *)
Lemma parse_plan_of (bi : Builtins) (response_text plan_str : string) :
  fenced response_text = Some plan_str ->
  (forall steps, literal_eval bi plan_str = Some (LList steps) ->
                 parse_plan bi response_text = steps)
  /\ (literal_eval bi plan_str = None -> parse_plan bi response_text = [])
  /\ (forall v, literal_eval bi plan_str = Some v ->
                (forall steps, v <> LList steps) ->
                parse_plan bi response_text = []).
Proof.
  intros F. unfold parse_plan. rewrite F. split; [|split].
  - now intros steps ->.
  - now intros ->.
  - intros v -> Hv. destruct v; try reflexivity. now destruct (Hv xs).
Qed.

(** C6, as the code has it.  [Planner.plan] returns the list written
    between the fences: for the response [```python\n['a','b']\n```] the
    two strings, and in general the value of the text between the first
    opening fence and the first closing fence behind it, stripped of
    white space at both ends, when that value is a list.  It returns the
    empty list when the opening fence is missing, when the text between
    the fences is not a literal, and when the literal is not a list.  A
    missing closing fence is no failure: the planner then reads all that
    follows the opening fence, in the same way. *)
Theorem C6_plan_parses_fenced_list
        (llm_client : HelloAgentsLLM) (bi : Builtins) (question : string) (w : World) :
  let response_text :=
    Py.or_empty (fst (think llm_client (plan_messages question) w)) in
  let result := fst (plan llm_client bi question w) in
  (response_text = "```python" ++ Py.nl ++ "['a','b']" ++ Py.nl ++ "```" ->
   literal_eval bi "['a','b']" = Some (LList [LStr "a"; LStr "b"]) ->
   result = [LStr "a"; LStr "b"])
  /\ (forall pre body post,
         response_text = pre ++ "```python" ++ body ++ "```" ++ post ->
         Py.occurs "```python" (pre ++ "```pytho") = false ->
         Py.occurs "```" (body ++ "``") = false ->
         prefix "```python" ("``" ++ post) = false ->
         prefix "```python" ("`" ++ post) = false ->
         (forall steps, literal_eval bi (Py.strip body) = Some (LList steps) ->
                        result = steps)
         /\ (literal_eval bi (Py.strip body) = None -> result = [])
         /\ (forall v, literal_eval bi (Py.strip body) = Some v ->
                       (forall steps, v <> LList steps) ->
                       result = []))
  /\ (forall pre body,
         response_text = pre ++ "```python" ++ body ->
         Py.occurs "```python" (pre ++ "```pytho") = false ->
         Py.occurs "```" body = false ->
         (forall steps, literal_eval bi (Py.strip body) = Some (LList steps) ->
                        result = steps)
         /\ (literal_eval bi (Py.strip body) = None -> result = [])
         /\ (forall v, literal_eval bi (Py.strip body) = Some v ->
                       (forall steps, v <> LList steps) ->
                       result = []))
  /\ (Py.occurs "```python" response_text = false -> result = [])
  /\ (forall plan_str,
         fenced response_text = Some plan_str ->
         literal_eval bi plan_str = None ->
         result = [])
  /\ (forall plan_str v,
         fenced response_text = Some plan_str ->
         literal_eval bi plan_str = Some v ->
         (forall steps, v <> LList steps) ->
         result = []).
Proof.
  intros response_text result. subst result. rewrite plan_eq. cbn [fst].
  fold response_text.
  assert (General : forall pre body post,
             response_text = pre ++ "```python" ++ body ++ "```" ++ post ->
             Py.occurs "```python" (pre ++ "```pytho") = false ->
             Py.occurs "```" (body ++ "``") = false ->
             prefix "```python" ("``" ++ post) = false ->
             prefix "```python" ("`" ++ post) = false ->
             fenced response_text = Some (Py.strip body)).
  { intros pre body post -> Hpre Hbody H2 H1. now apply fenced_first. }
  split; [|split; [|split; [|split; [|split]]]].
  - intros E Hev.
    apply (parse_plan_of bi response_text "['a','b']"); [|exact Hev].
    rewrite E. reflexivity.
  - intros pre body post E Hpre Hbody H2 H1.
    apply parse_plan_of. now apply (General pre body post).
  - intros pre body -> Hpre Hbody.
    apply parse_plan_of. now apply fenced_unclosed.
  - intros H. unfold parse_plan. now rewrite fenced_missing.
  - intros plan_str F Hev. now apply (parse_plan_of bi response_text plan_str F).
  - intros plan_str v F Hev Hv.
    now apply (parse_plan_of bi response_text plan_str F) with (v := v).
Qed.

End PlannerClaims.

(* ================================================================== *)
(** * Properties of the executor and the orchestrator *)

Section ExecutorClaims.

Import Client PlanSolve.

Variables (llm_client : HelloAgentsLLM) (bi : Builtins) (question : string).

Lemma think_world (messages : list Message) (w : World) :
  snd (think llm_client messages w)
  = {| llm_calls := List.app (llm_calls w)
                             [(messages, fst (think llm_client messages w))];
       tool_calls := tool_calls w |}.
Proof. reflexivity. Qed.

Lemma execute_loop_cons (plan : list literal) (i : nat) (step : literal)
      (rest : list literal) (history : string) (response_text : option string)
      (w : World) :
  let messages :=
    [ {| role := "user"; content := step_prompt bi question plan history step |} ] in
  let result := Py.or_empty (fst (think llm_client messages w)) in
  execute_loop llm_client bi question plan i (step :: rest) history response_text w
  = execute_loop llm_client bi question plan (S i) rest
                 (history ++ block i (str bi step) result) (Some result)
                 (snd (think llm_client messages w)).
Proof. reflexivity. Qed.

(** The transcript after [k] steps depends on the first [k] results only. *)
Lemma transcript_ext (plan : list literal) (r1 r2 : list string) (k : nat) :
  (forall j, j < k -> nth j r1 "" = nth j r2 "") ->
  transcript bi plan r1 k = transcript bi plan r2 k.
Proof.
  induction k as [|k IH]; intros H; [reflexivity|].
  cbn [transcript]. rewrite IH, (H k) by auto with arith. reflexivity.
Qed.

Lemma last_cons {A} (x : A) (l : list A) (d : A) : last (x :: l) d = last l x.
Proof.
  revert x d. induction l as [|y l IH]; intros x d; [reflexivity|].
  change (last (x :: y :: l) d) with (last (y :: l) d).
  now rewrite !IH.
Qed.

Lemma last_some {A} (f : A -> string) (l : list A) (d : option string) :
  l <> [] ->
  last (map (fun r => Some (f r)) l) d = Some (last (map f l) "").
Proof.
  revert d. induction l as [|x l IH]; intros d H; [contradiction|].
  destruct l as [|y l]; [reflexivity|].
  specialize (IH (Some (f x))). cbn [map] in *.
  rewrite (last_cons (Some (f x))), (last_cons (f x)), (last_cons (f y)).
  rewrite IH by discriminate. now rewrite last_cons.
Qed.

(** The loop from step [length done] on, the earlier steps having given
    [rdone]: it makes one call per remaining step, each with the
    transcript of all steps before it. *)
Lemma execute_loop_spec (plan : list literal) :
  forall steps done rdone response_text w,
    plan = List.app done steps ->
    List.length rdone = List.length done ->
    exists rnew,
      List.length rnew = List.length steps
      /\ execute_loop llm_client bi question plan (List.length done) steps
           (transcript bi plan (map Py.or_empty rdone) (List.length done))
           response_text w
         = (transcript bi plan (map Py.or_empty (List.app rdone rnew)) (List.length plan),
            last (map (fun r => Some (Py.or_empty r)) rnew) response_text,
            {| llm_calls :=
                 List.app (llm_calls w)
                   (map (fun k =>
                           (step_messages bi question plan
                              (map Py.or_empty (List.app rdone rnew)) k,
                            nth k (List.app rdone rnew) None))
                        (seq (List.length done) (List.length steps)));
               tool_calls := tool_calls w |}).
Proof.
  induction steps as [|step rest IH]; intros done rdone response_text w Hplan Hlen.
  - exists []. split; [reflexivity|].
    rewrite List.app_nil_r in Hplan. subst plan.
    cbn [execute_loop map seq List.length last]. rewrite !List.app_nil_r.
    now destruct w.
  - rewrite execute_loop_cons. cbv zeta.
    set (history := transcript bi plan (map Py.or_empty rdone) (List.length done)).
    set (messages := [ {| role := "user";
                          content := step_prompt bi question plan history step |} ]).
    set (r := fst (think llm_client messages w)).
    assert (Hstep : nth (List.length done) plan LNone = step)
      by (rewrite Hplan; apply nth_middle).
    destruct (IH (List.app done [step]) (List.app rdone [r]) (Some (Py.or_empty r))
                 (snd (think llm_client messages w))) as (rnew & Hn & E).
    { rewrite Hplan, <- List.app_assoc. reflexivity. }
    { rewrite !List.length_app. cbn. lia. }
    assert (Hr : forall more,
               nth (List.length done) (List.app rdone (r :: more)) None = r)
      by (intros more; rewrite <- Hlen; apply nth_middle).
    assert (Hhist : forall more,
               transcript bi plan (map Py.or_empty (List.app rdone (r :: more)))
                          (List.length done) = history).
    { intros more. apply transcript_ext. intros j Hj.
      rewrite !List.map_app. rewrite List.app_nth1; [reflexivity|].
      rewrite List.length_map. lia. }
    exists (r :: rnew). split; [cbn; lia|].
    rewrite List.length_app in E. cbn [List.length] in E.
    rewrite Nat.add_1_r in E.
    replace (transcript bi plan (map Py.or_empty (List.app rdone [r])) (S (List.length done)))
      with (history ++ block (List.length done) (str bi step) (Py.or_empty r)) in E.
    2:{ cbn [transcript]. rewrite (Hhist []), Hstep. f_equal. f_equal.
        rewrite List.map_app. cbn [map].
        rewrite <- (List.length_map Py.or_empty rdone) in Hlen.
        rewrite <- Hlen. now rewrite nth_middle. }
    rewrite E. rewrite <- !List.app_assoc. cbn [List.app].
    f_equal; [f_equal|].
    + cbn [map]. now rewrite last_cons.
    + rewrite think_world. cbn [llm_calls tool_calls].
      rewrite <- List.app_assoc. cbn [List.app List.length seq map].
      f_equal. f_equal. f_equal. f_equal.
      * unfold step_messages. now rewrite Hhist, Hstep.
      * now rewrite Hr.
Qed.

Lemma falsy_app (a b : string) : Py.falsy (a ++ b) = Py.falsy a && Py.falsy b.
Proof. now destruct a. Qed.

Lemma transcript_nonempty (plan : list literal) (results : list string) (k : nat) :
  Py.falsy (transcript bi plan results (S k)) = false.
Proof. cbn [transcript]. rewrite falsy_app. apply andb_false_r. Qed.

Lemma within_here (x b : string) : Py.within x (x ++ b).
Proof. now exists "", b. Qed.

Lemma within_skip (x a s : string) : Py.within x s -> Py.within x (a ++ s).
Proof. intros (c & d & ->). exists (a ++ c), d. now rewrite app_assoc. Qed.





End ExecutorClaims.

(* ================================================================== *)
(** * More on the parsers of the ReAct agent *)

Section ParserExtras.

Import Re ReAct.

Context `{U : Py.Unicode}.

(** What [rstrip] removes is white space. *)
Lemma rstrip_split (s : string) :
  exists b, s = Py.rstrip s ++ b /\ Py.blank b = true.
Proof.
  induction s as [|c s (b & IH & Hb)]; [now exists ""|].
  cbn [Py.rstrip]. destruct (Py.blank (String c s)) eqn:E.
  - now exists (String c s).
  - exists b. cbn [append]. now rewrite <- IH.
Qed.

Lemma rstrip_idem (s : string) : Py.rstrip (Py.rstrip s) = Py.rstrip s.
Proof.
  induction s as [|c s IH]; [reflexivity|].
  cbn [Py.rstrip]. destruct (Py.blank (String c s)) eqn:E; [reflexivity|].
  cbn [Py.rstrip]. rewrite IH.
  destruct (Py.blank (String c (Py.rstrip s))) eqn:E'; [|reflexivity].
  destruct (rstrip_split s) as (b & Hs & Hb).
  pose proof (all_tok_app Py.space_len space_len_local _ b Hb 0 E') as J.
  cbn [append] in J. rewrite <- Hs in J. unfold Py.blank in E. congruence.
Qed.

(** After [lstrip] no white space stands at the front. *)
Lemma lstrip_head (s : string) :
  forall skip, Py.space_len (Py.drop_toks Py.space_len skip s) = 0.
Proof.
  induction s as [|c s IH]; intros skip; [reflexivity|].
  cbn [Py.drop_toks]. destruct skip as [|k]; [|apply IH].
  destruct (Py.space_len (String c s)) eqn:E; [exact E | apply IH].
Qed.

(** A text that does not start with white space keeps its start when
    its end is trimmed. *)
Lemma lstrip_rstrip (s : string) :
  Py.space_len s = 0 -> Py.lstrip (Py.rstrip s) = Py.rstrip s.
Proof.
  destruct s as [|c s]; [reflexivity|]. intros H.
  cbn [Py.rstrip]. unfold Py.blank. cbn [Py.all_tok]. rewrite H.
  unfold Py.lstrip. cbn [Py.drop_toks].
  destruct (Py.space_len (String c (Py.rstrip s))) as [|n] eqn:E; [reflexivity|].
  destruct (rstrip_split s) as (b & Hs & _).
  destruct (proj1 space_len_local _ b _ E) as (E' & _).
  cbn [append] in E'. rewrite <- Hs in E'. congruence.
Qed.

Lemma strip_idem (s : string) : Py.strip (Py.strip s) = Py.strip s.
Proof.
  unfold Py.strip.
  rewrite (lstrip_rstrip (Py.lstrip s) (lstrip_head s 0)).
  apply rstrip_idem.
Qed.

Lemma drop_lit_spec (p s r : string) : drop_lit p s = Some r -> s = p ++ r.
Proof.
  revert s. induction p as [|a p IH]; intros s H.
  - cbn in H. now injection H as ->.
  - destruct s as [|b s]; [discriminate H|]. cbn [drop_lit] in H.
    destruct (Ascii.eqb a b) eqn:E; [|discriminate H].
    apply Ascii.eqb_eq in E. subst b. cbn [append]. f_equal. now apply IH.
Qed.

(** Where a repetition followed by the rest of the pattern succeeds, it
    has taken a run of characters of its class and the rest of the
    pattern has succeeded on what follows. *)
Lemma star_sound {A} (c : ascii -> bool) (k : string -> string -> option A) :
  forall s acc r,
    star c acc s k = Some r ->
    exists m rest,
      s = m ++ rest /\ Py.all_chars c m = true /\ k (acc ++ m) rest = Some r.
Proof.
  induction s as [|a s IH]; intros acc r H; cbn [star] in H.
  - exists "", "". rewrite (app_nil_r acc). repeat split. exact H.
  - assert (Stop : k acc (String a s) = Some r ->
                   exists m rest, String a s = m ++ rest
                                  /\ Py.all_chars c m = true
                                  /\ k (acc ++ m) rest = Some r).
    { intros K. exists "", (String a s). rewrite (app_nil_r acc). repeat split. exact K. }
    destruct (c a) eqn:E; [|auto].
    destruct (star c (acc ++ String a "") s k) as [r'|] eqn:S; [|auto].
    injection H as ->.
    destruct (IH _ _ S) as (m & rest & -> & Hm & K).
    exists (String a m), rest. cbn [Py.all_chars append]. rewrite E, Hm.
    rewrite app_snoc in K. repeat split. exact K.
Qed.

(** No run of white space stands at the end of what [rstrip] gives. *)
Lemma rstrip_end (s : string) :
  forall a b, Py.rstrip s = a ++ b -> Py.falsy b = false -> Py.blank b = false.
Proof.
  induction s as [|c s IH]; intros a b H Hb.
  - destruct a, b; discriminate.
  - cbn [Py.rstrip] in H. destruct (Py.blank (String c s)) eqn:E.
    { destruct a, b; discriminate. }
    destruct a as [|x a]; cbn [append] in H.
    + subst b. destruct (Py.blank (String c (Py.rstrip s))) eqn:E'; [|reflexivity].
      destruct (rstrip_split s) as (t & Hs & Ht).
      pose proof (all_tok_app Py.space_len space_len_local _ t Ht 0 E') as J.
      cbn [append] in J. rewrite <- Hs in J. unfold Py.blank in E. congruence.
    + injection H as _ H. now apply (IH a b).
Qed.

(** X4. The thought and the action of [_parse_output] are trimmed: no
    white space, of ASCII or of Unicode, stands at the front and no run
    of white space at the end, so stripping them again changes nothing;
    and they hold no line feed. *)
Theorem X4_parse_output_fields_are_trimmed (text field : string) :
  fst (_parse_output text) = Some field \/ snd (_parse_output text) = Some field ->
  Py.strip field = field
  /\ Py.space_len field = 0
  /\ (forall a b, field = a ++ b -> Py.falsy b = false -> Py.blank b = false)
  /\ Py.all_chars Py.isdot field = true.
Proof.
  assert (G : forall p,
             option_map (fun m => Py.strip (group m 1))
                        (re_search (Cat (Lit p) (Group (Star Dot))) text) = Some field ->
             Py.strip field = field
             /\ Py.space_len field = 0
             /\ (forall a b, field = a ++ b -> Py.falsy b = false -> Py.blank b = false)
             /\ Py.all_chars Py.isdot field = true).
  { intros p H. destruct (re_search _ text) as [m|] eqn:E; [|discriminate H].
    cbn [option_map] in H. injection H as <-.
    split; [apply strip_idem | split; [|split]].
    - unfold Py.strip.
      rewrite <- (lstrip_rstrip (Py.lstrip (group m 1)) (lstrip_head _ 0)).
      apply (lstrip_head _ 0).
    - intros a b. apply rstrip_end.
    - apply strip_all. eapply re_search_line_dot. exact E. }
  intros [H | H].
  - rewrite parse_output_thought in H. now apply (G "Thought: ").
  - rewrite parse_output_action in H. now apply (G "Action: ").
Qed.

(** X5. Whatever [_parse_action] finds is in the action as written: the
    name, a non-empty run of word characters (of any script) at its
    start, then the input between brackets, free of line feeds.  It
    finds both parts or neither. *)
Theorem X5_parse_action_sound (action_text : string) :
  _parse_action action_text = (None, None)
  \/ exists name input tail,
       _parse_action action_text = (Some name, Some input)
       /\ action_text = name ++ "[" ++ input ++ "]" ++ tail
       /\ name <> ""
       /\ Py.all_word name = true
       /\ Py.all_chars Py.isdot input = true.
Proof.
  unfold _parse_action.
  destruct (re_match tool_re action_text) as [gs|] eqn:E; [right | now left].
  unfold re_match, tool_re in E. cbn [exec] in E.
  apply (star_tok_sound Py.word_len word_len_local) in E as (n & rest & -> & Hn & E).
  cbn [append] in E.
  destruct (Py.falsy n) eqn:Hne; [discriminate E|].
  destruct (drop_lit "[" rest) as [rest1|] eqn:D1; [|discriminate E].
  apply drop_lit_spec in D1 as ->.
  apply star_sound in E as (i & rest2 & -> & Hi & E).
  destruct (drop_lit "]" rest2) as [tail|] eqn:D2; [|discriminate E].
  apply drop_lit_spec in D2 as ->.
  injection E as <-.
  exists n, i, tail.
  repeat split; try assumption. now destruct n.
Qed.

End ParserExtras.

(* ================================================================== *)
(** * More on one pass of the ReAct loop *)

Section PassExtras.

Import Client Tools Re ReAct.

Context `{U : Py.Unicode}.

(** Acting on a response with a non-empty action: what is left of the
    body of the loop. *)
Lemma act_on_action (agent : ReActAgent) (st : State) (text action : string) :
  snd (_parse_output text) = Some action ->
  Py.falsy action = false ->
  act agent (Some text) st
  = if Py.startswith action "Finish" then
      match re_match finish_re action with
      | None => (Raised AttributeError, st)
      | Some m => (Return (group m 1), st)
      end
    else
      let (tool_name, tool_input) := _parse_action action in
      if Py.falsy_opt tool_name || Py.falsy_opt tool_input then (Continue, st)
      else
        match getTool (toolExecutor agent) (Py.or_empty tool_name) with
        | None => (Continue, st)
        | Some tool_function =>
            let (observation, w2) :=
              call_tool (Py.or_empty tool_name) tool_function
                        (Py.or_empty tool_input) (world st) in
            (Continue,
             {| history := List.app (history st) (lines action observation);
                world := w2 |})
        end.
Proof.
  intros H Hne. unfold act. destruct text as [|c text]; [discriminate H|].
  cbn [Py.falsy_opt Py.falsy Py.or_empty].
  destruct (_parse_output (String c text)) as [thought action_opt].
  cbn [snd] in H. subst action_opt.
  cbn [Py.falsy_opt Py.or_empty]. rewrite Hne. reflexivity.
Qed.

Lemma action_parts_dot (text name input tail : string) :
  snd (_parse_output text) = Some (name ++ "[" ++ input ++ "]" ++ tail) ->
  Py.all_chars Py.isdot input = true.
Proof.
  intros H. apply parse_output_action_dot in H.
  rewrite !all_chars_app in H.
  apply andb_true_iff in H as [_ H]. apply andb_true_iff in H as [_ H].
  now apply andb_true_iff in H as [H _].
Qed.

(** X6. An action that is not of the shape [name[...]], the run of word
    characters at its start being followed by something else than an
    opening bracket, is not decomposed; the pass then changes nothing
    and the loop goes on. *)
Theorem X6_action_without_bracket_is_skipped
        (agent : ReActAgent) (st : State) (text name tail : string) :
  Py.all_word name = true ->
  Py.word_len tail = 0 ->
  prefix "[" tail = false ->
  snd (_parse_output text) = Some (name ++ tail) ->
  Py.falsy (name ++ tail) = false ->
  Py.startswith (name ++ tail) "Finish" = false ->
  _parse_action (name ++ tail) = (None, None)
  /\ act agent (Some text) st = (Continue, st).
Proof.
  intros Hn Hstop Htail Hparse Hne Hfin.
  assert (P : _parse_action (name ++ tail) = (None, None)).
  { unfold _parse_action, re_match, tool_re. cbn [exec].
    rewrite (star_tok_needs Py.word_len word_len_local _ "[" tail); auto.
    intros m r Hr. rewrite (drop_lit_prefix "[" r Hr). now destruct (Py.falsy m). }
  split; [exact P|].
  rewrite (act_on_action _ _ _ _ Hparse Hne), Hfin, P. reflexivity.
Qed.



(** X8. A pass whose action is [name[input]] for a registered tool and a
    non-empty input calls that tool once, with that input, and appends
    the action as written and the observation the tool returned; the
    loop goes on.  The name is a run of word characters of any script. *)
Theorem X8_tool_pass_records_action_and_observation
        (agent : ReActAgent) (st : State) (text : string)
        (name input tail : string)
        (tool_function : nat -> string -> string) :
  let action := name ++ "[" ++ input ++ "]" ++ tail in
  let observation := tool_function (List.length (tool_calls (world st))) input in
  snd (_parse_output text) = Some action ->
  Py.all_word name = true ->
  Py.falsy name = false ->
  Py.falsy input = false ->
  Py.all_chars not_rbracket tail = true ->
  Py.startswith action "Finish" = false ->
  getTool (toolExecutor agent) name = Some tool_function ->
  act agent (Some text) st
  = (Continue,
     {| history := List.app (history st)
                            ["Action: " ++ action; "Observation: " ++ observation];
        world := {| llm_calls := llm_calls (world st);
                    tool_calls := List.app (tool_calls (world st))
                                           [(name, input, observation)] |} |}).
Proof.
  intros action observation Hparse Hname Hne Hinput Htail Hfin Htool.
  assert (A : Py.falsy action = false) by (unfold action; now destruct name).
  rewrite (act_on_action _ _ _ _ Hparse A). fold action. rewrite Hfin.
  unfold action at 1.
  rewrite (tool_match name input tail Hname Hne
             (action_parts_dot text name input tail Hparse) Htail).
  cbn [Py.falsy_opt Py.or_empty]. rewrite Hne, Hinput, Htool.
  reflexivity.
Qed.


(** X10. Text after the closing bracket of a [Finish[...]] does not
    reach the answer: with no further closing bracket in it, the answer
    is what stands between the brackets. *)
Theorem X10_finish_drops_trailing_text
        (agent : ReActAgent) (st : State) (text X tail : string) :
  snd (_parse_output text) = Some ("Finish[" ++ X ++ "]" ++ tail) ->
  Py.all_chars not_rbracket tail = true ->
  act agent (Some text) st = (Return X, st).
Proof.
  intros Hparse Htail.
  rewrite (act_on_action _ _ _ _ Hparse eq_refl).
  change (Py.startswith ("Finish[" ++ X ++ "]" ++ tail) "Finish")
    with (prefix "" (String "[" (X ++ "]" ++ tail))).
  cbn [prefix].
  rewrite finish_match;
    [reflexivity | exact (action_parts_dot text "Finish" X tail Hparse) | exact Htail].
Qed.

(** X11. An action that starts with [Finish] raises [AttributeError]
    whenever [Finish] is not followed at once by an opening bracket, and
    whenever no closing bracket follows: so an action like
    [Finished[x]], or a tool whose name starts with [Finish], too. *)
Theorem X11_finish_without_brackets_raises
        (agent : ReActAgent) (st : State) (text rest : string) :
  snd (_parse_output text) = Some ("Finish" ++ rest) ->
  prefix "[" rest = false \/ Py.all_chars not_rbracket rest = true ->
  act agent (Some text) st = (Raised AttributeError, st).
Proof.
  intros Hparse Hrest.
  rewrite (act_on_action _ _ _ _ Hparse eq_refl).
  change (Py.startswith ("Finish" ++ rest) "Finish") with (prefix "" rest).
  replace (prefix "" rest) with true by now destruct rest.
  replace (re_match finish_re ("Finish" ++ rest)) with (@None (list string));
    [reflexivity|].
  symmetry. unfold re_match, finish_re. cbn [exec].
  change (drop_lit "Finish[" ("Finish" ++ rest)) with (drop_lit "[" rest).
  destruct (drop_lit "[" rest) as [rest'|] eqn:D; [|reflexivity].
  apply drop_lit_spec in D. subst rest.
  destruct Hrest as [H | H];
    [change ("[" ++ rest') with (String "[" rest') in H;
     rewrite prefix_one in H; discriminate H|].
  cbn [append Py.all_chars] in H. apply andb_true_iff in H as [_ H].
  apply star_no_bracket; [|exact H].
  intros m r Hr. now apply (needs_bracket (fun _ _ => Some ([] ++ [m])%list)).
Qed.

Lemma within_join (sep x : string) (xs : list string) :
  In x xs -> Py.within x (Py.join sep xs).
Proof.
  induction xs as [|y xs IH]; intros H; [contradiction|].
  destruct H as [-> | H].
  - destruct xs; cbn [Py.join]; [exists "", ""; now rewrite app_nil_r|].
    apply within_here.
  - destruct xs as [|z xs]; [contradiction|].
    change (Py.join sep (y :: z :: xs)) with (y ++ sep ++ Py.join sep (z :: xs)).
    apply within_skip, within_skip. now apply IH.
Qed.

(** X12. The one message sent to the model in a pass is a user message
    that holds the tool listing, the question and every line of the
    history gathered so far. *)
Theorem X12_prompt_carries_the_whole_history
        (agent : ReActAgent) (question : string) (st : State) :
  exists prompt,
    messages_at agent question st = [ {| role := "user"; content := prompt |} ]
    /\ Py.within question prompt
    /\ Py.within (getAvailableTools (toolExecutor agent)) prompt
    /\ (forall line, In line (history st) -> Py.within line prompt).
Proof.
  eexists. split; [reflexivity|]. unfold REACT_PROMPT.
  split; [|split].
  - repeat first [apply within_here | apply within_skip].
  - repeat first [apply within_here | apply within_skip].
  - intros line H.
    eapply within_trans; [apply (within_join Py.nl), H|].
    repeat first [apply within_here | apply within_skip].
Qed.

End PassExtras.

(* ================================================================== *)
(** * The client: construction and [think] *)

Section ClientExtras.

Import Client Config.

Lemma concat_cons (x : string) (xs : list string) :
  String.concat "" (x :: xs) = x ++ String.concat "" xs.
Proof. destruct xs; cbn [String.concat append]; [now rewrite app_nil_r | reflexivity]. Qed.

(** X1. [think] returns the contents of the chunks in arrival order,
    chunks without content adding nothing; it returns [None] only when
    the request failed; and it makes exactly one request. *)
Theorem X1_think_collects_the_stream
        (llm : HelloAgentsLLM) (messages : list Message) (w : World) :
  (forall chunks,
      client llm (List.length (llm_calls w)) messages = Stream chunks ->
      fst (think llm messages w)
      = Some (String.concat ""
                (flat_map (fun c => match c with Some s => [s] | None => [] end) chunks)))
  /\ (fst (think llm messages w) = None <->
      client llm (List.length (llm_calls w)) messages = Failure)
  /\ llm_calls (snd (think llm messages w))
     = List.app (llm_calls w) [(messages, fst (think llm messages w))].
Proof.
  unfold think. cbn [fst snd llm_calls]. repeat split.
  - intros chunks ->. f_equal.
    induction chunks as [|c chunks IH]; [reflexivity|].
    cbn [map flat_map]. destruct c as [s|]; cbn [Py.or_empty List.app];
      rewrite !concat_cons, IH; reflexivity.
  - destruct (client llm _ messages); [discriminate | reflexivity].
  - intros ->. reflexivity.
Qed.

(** X2. With all four arguments given, non-empty and the timeout not
    zero, the constructor settles on exactly them: neither the
    environment nor [int] is consulted. *)
Theorem X2_explicit_arguments_win
        (int_of : string -> option Z) (env : string -> option string)
        (m k u : string) (t : Z) :
  Py.falsy m = false -> Py.falsy k = false -> Py.falsy u = false -> t <> 0%Z ->
  init int_of env
       {| model := Some m; apiKey := Some k; baseUrl := Some u; timeout := Some t |}
  = inl {| model_id := m; api_key := k; base_url := u; timeout_s := t |}.
Proof.
  intros Hm Hk Hu Ht. unfold init, or_getenv, truthy_int.
  cbn [model apiKey baseUrl timeout Py.falsy_opt].
  rewrite Hm, Hk, Hu. apply Z.eqb_neq in Ht. rewrite Ht.
  cbn [negb Py.falsy_opt Py.or_empty]. now rewrite Hm, Hk, Hu.
Qed.

(** X3. A constructed client never has an empty model, credential or
    endpoint; and when one of the three is given neither by a non-empty
    argument nor by a non-empty environment variable, construction
    raises. *)
Theorem X3_no_client_without_its_settings
        (int_of : string -> option Z) (env : string -> option string) (a : Args) :
  (forall s, init int_of env a = inl s ->
             model_id s <> "" /\ api_key s <> "" /\ base_url s <> "")
  /\ ((Py.falsy_opt (model a) = true /\ Py.falsy_opt (env "LLM_MODEL_ID") = true)
      \/ (Py.falsy_opt (apiKey a) = true /\ Py.falsy_opt (env "LLM_API_KEY") = true)
      \/ (Py.falsy_opt (baseUrl a) = true /\ Py.falsy_opt (env "LLM_BASE_URL") = true) ->
      exists e, init int_of env a = inr e).
Proof.
  assert (N : forall r, Py.falsy_opt r = false -> Py.or_empty r <> "").
  { intros [[|c r]|]; cbn; congruence. }
  unfold init. split.
  - intros s.
    destruct (if truthy_int (timeout a) then timeout a else _) as [t|]; [|discriminate].
    destruct (Py.falsy_opt (or_getenv (model a) env "LLM_MODEL_ID")) eqn:E1;
      [discriminate|].
    destruct (Py.falsy_opt (or_getenv (apiKey a) env "LLM_API_KEY")) eqn:E2;
      [discriminate|].
    destruct (Py.falsy_opt (or_getenv (baseUrl a) env "LLM_BASE_URL")) eqn:E3;
      [discriminate|].
    cbn [orb]. intros H. injection H as <-. cbn [model_id api_key base_url].
    auto.
  - intros H.
    destruct (if truthy_int (timeout a) then timeout a else _) as [t|];
      [|now eexists].
    replace (Py.falsy_opt (or_getenv (model a) env "LLM_MODEL_ID")
             || Py.falsy_opt (or_getenv (apiKey a) env "LLM_API_KEY")
             || Py.falsy_opt (or_getenv (baseUrl a) env "LLM_BASE_URL")) with true;
      [now eexists|].
    symmetry. unfold or_getenv.
    destruct H as [[H1 H2] | [[H1 H2] | [H1 H2]]]; rewrite H1, H2;
      rewrite ?orb_true_r; reflexivity.
Qed.

(** X13. An argument given as the empty text, and a timeout given as
    zero, count as not given: the constructor does with them what it
    does without them. *)
Theorem X13_blank_arguments_count_as_absent
        (int_of : string -> option Z) (env : string -> option string) (a : Args) :
  init int_of env a = init int_of env (drop_blank a).
Proof.
  assert (G : forall arg name, or_getenv (given arg) env name = or_getenv arg env name).
  { intros arg name. unfold or_getenv, given.
    destruct (Py.falsy_opt arg) eqn:E; [reflexivity | now rewrite E]. }
  unfold init, drop_blank. cbn [model apiKey baseUrl timeout]. rewrite !G.
  destruct (truthy_int (timeout a)) eqn:T; [now rewrite T | reflexivity].
Qed.

End ClientExtras.

(* ================================================================== *)
(** * The search tool *)

Section SearchExtras.

Import Serp.

(** X14. Every failure of [search] comes back as text.  Without a key in
    the environment (unset or empty) the service is not asked, whatever
    it would have answered, and the text names the missing key; and when
    the service raises, the text carries the message of the exception.
    The service is asked for the query as given, with the key of the
    environment. *)
Theorem X14_search_failures_come_back_as_text
        (env : string -> option string) (query : string) :
  (Py.falsy_opt (env "SERPAPI_API_KEY") = true ->
   forall api,
     search env api query
     = "搜索时发生错误: SerpAPI API key must be provided as an environment variable.")
  /\ (forall api key e,
         env "SERPAPI_API_KEY" = Some key ->
         Py.falsy key = false ->
         api {| engine := "google"; q := query; api_key := key; gl := "us"; hl := "en" |}
         = inr e ->
         search env api query = "搜索时发生错误: " ++ e).
Proof.
  unfold search, attempt. split.
  - intros H api. now rewrite H.
  - intros api key e Hkey Hne Hcall. rewrite Hkey. cbn [Py.falsy_opt Py.or_empty].
    now rewrite Hne, Hcall.
Qed.

(** X15. Of the organic results only the first three reach the summary,
    numbered from 1, each with its title and snippet (empty where the
    result has none); and an empty list of organic results is treated
    like a missing one. *)
Theorem X15_summary_uses_three_organic_results (query : string) (r : Results) :
  summarise query r
  = summarise query
      {| answer_box_list := answer_box_list r;
         answer_box := answer_box r;
         knowledge_graph := knowledge_graph r;
         organic_results := option_map (firstn 3) (organic_results r) |}
  /\ (forall r1 r2 r3 more,
         summarise query (organic_only (r1 :: r2 :: r3 :: more))
         = "[1] " ++ Py.or_empty (title r1) ++ Py.nl ++ Py.or_empty (snippet r1)
           ++ Py.nl ++ Py.nl
           ++ "[2] " ++ Py.or_empty (title r2) ++ Py.nl ++ Py.or_empty (snippet r2)
           ++ Py.nl ++ Py.nl
           ++ "[3] " ++ Py.or_empty (title r3) ++ Py.nl ++ Py.or_empty (snippet r3))
  /\ summarise query (organic_only []) = summarise query nothing.
Proof.
  repeat split.
  - unfold summarise. cbn [answer_box_list answer_box knowledge_graph organic_results].
    destruct (answer_box_list r); [reflexivity|].
    destruct (answer_box r) as [[[?|]]|]; try reflexivity;
      destruct (knowledge_graph r) as [[[?|]]|]; try reflexivity;
      destruct (organic_results r) as [[|x rs]|]; try reflexivity;
      cbn [option_map]; rewrite List.firstn_firstn; reflexivity.
  - intros r1 r2 r3 more. unfold summarise, organic_only, get_or_empty.
    cbn [answer_box_list answer_box knowledge_graph organic_results firstn
         snippets_from Py.join].
    rewrite !app_assoc. reflexivity.
Qed.

End SearchExtras.

(* ================================================================== *)
(** * More on the planner, the executor and the orchestrator *)

Section PlanSolveExtras.

Import Client PlanSolve.

Variables (llm_client : HelloAgentsLLM) (bi : Builtins) (question : string).

(** An opening fence that is never closed: all that follows it is taken. *)
Lemma fenced_open (pre body : string) :
  Py.all_chars Py.no_backtick pre = true ->
  Py.all_chars Py.no_backtick body = true ->
  fenced (pre ++ "```python" ++ body) = Some (Py.strip body).
Proof.
  intros Hpre Hbody. unfold fenced, Py.split.
  rewrite (split_from_pre "`" "``python" pre "" _ Hpre).
  rewrite (split_from_sep "`" "``python").
  rewrite (split_from_none _ body "") by now apply (occurs_no_first "`" "``python").
  cbn [nth_error append].
  rewrite (split_from_none _ body "") by now apply (occurs_no_first "`" "``").
  reflexivity.
Qed.

(** X16. The closing fence is not needed: when the response opens a
    fence and never closes it, the planner reads all that follows the
    opening fence. *)
Theorem X16_closing_fence_is_optional (w : World) (pre body : string)
        (steps : list literal) :
  Py.or_empty (fst (think llm_client (plan_messages question) w))
  = pre ++ "```python" ++ body ->
  Py.all_chars Py.no_backtick pre = true ->
  Py.all_chars Py.no_backtick body = true ->
  literal_eval bi (Py.strip body) = Some (LList steps) ->
  fst (plan llm_client bi question w) = steps.
Proof.
  intros E Hpre Hbody Hev. rewrite plan_eq. cbn [fst]. rewrite E.
  unfold parse_plan. rewrite fenced_open by assumption. now rewrite Hev.
Qed.

(** X17. [Executor.execute] raises exactly on the empty plan, where the
    name of the result is never bound; it then has not called the
    model. *)
Theorem X17_execute_raises_on_the_empty_plan_only (steps : list literal) (w : World) :
  (fst (execute llm_client bi question steps w) = inr UnboundLocalError <-> steps = [])
  /\ (steps = [] -> snd (execute llm_client bi question steps w) = w).
Proof.
  split; [split|].
  - intros H. destruct steps as [|s rest]; [reflexivity|]. exfalso.
    destruct (execute_loop_spec llm_client bi question (s :: rest) (s :: rest)
                                [] [] None w eq_refl eq_refl) as (responses & Hn & E).
    cbn [List.length transcript List.app map] in E.
    unfold execute in H. rewrite E in H.
    rewrite last_some in H by (intros ->; discriminate Hn).
    discriminate H.
  - intros ->. reflexivity.
  - intros ->. reflexivity.
Qed.

(** X18. [PlanAndSolveAgent.run] never meets that exception: it stops
    without a plan or it solves.  With a plan of n > 0 steps it makes
    n + 1 model calls, the planner's and one per step, and the answer it
    prints is what the executor returned. *)
Theorem X18_orchestrator_never_fails (w : World) :
  (forall e, fst (run llm_client bi question w) <> Failed e)
  /\ (fst (plan llm_client bi question w) <> [] ->
      fst (run llm_client bi question w)
      = match fst (execute llm_client bi question (fst (plan llm_client bi question w))
                           (snd (plan llm_client bi question w))) with
        | inl final_answer => Solved final_answer
        | inr e => Failed e
        end
      /\ List.length (llm_calls (snd (run llm_client bi question w)))
         = List.length (llm_calls w) + 1
           + List.length (fst (plan llm_client bi question w))).
Proof.
  unfold run. rewrite plan_eq. cbn [fst snd].
  set (steps := parse_plan bi _). set (w1 := snd (think llm_client _ w)).
  destruct steps as [|s rest] eqn:Hsteps.
  { split; [discriminate | intros H; now destruct H]. }
  destruct (execute_loop_spec llm_client bi question (s :: rest) (s :: rest)
                              [] [] None w1 eq_refl eq_refl) as (responses & Hn & E).
  cbn [List.length transcript List.app map] in E.
  unfold execute. rewrite E.
  rewrite last_some by (intros ->; discriminate Hn).
  cbn [fst snd llm_calls]. split; [discriminate|]. intros _. split; [reflexivity|].
  rewrite List.length_app, List.length_map, List.length_seq.
  subst w1. rewrite think_world. cbn [llm_calls].
  rewrite List.length_app. cbn [List.length]. lia.
Qed.

End PlanSolveExtras.

(* ================================================================== *)
(** * What a whole ReAct run hands back *)

Section RunExtras.

Import Client Tools Re ReAct.

Context `{U : Py.Unicode}.

Lemma within_refl (s : string) : Py.within s s.
Proof. exists "", "". now rewrite app_nil_r. Qed.

Lemma within_tail (x : string) (c : ascii) (s : string) :
  Py.within x s -> Py.within x (String c s).
Proof. apply (within_skip x (String c "") s). Qed.

Lemma within_lstrip (s : string) : Py.within (Py.lstrip s) s.
Proof.
  unfold Py.lstrip. destruct (drop_toks_suffix Py.space_len s 0) as (a & E).
  exists a, "". now rewrite app_nil_r.
Qed.

Lemma within_strip (s : string) : Py.within (Py.strip s) s.
Proof.
  unfold Py.strip. eapply within_trans; [|apply within_lstrip].
  destruct (rstrip_prefix (Py.lstrip s)) as (b & E).
  rewrite E at 2. apply within_here.
Qed.

Lemma take_while_prefix (p : ascii -> bool) (s : string) :
  exists b, s = Py.take_while p s ++ b.
Proof.
  induction s as [|c s (b & IH)]; [now exists ""|].
  cbn [Py.take_while]. destruct (p c).
  - exists b. cbn [append]. now rewrite <- IH.
  - now exists (String c s).
Qed.

(** What "literal, then the rest of the line" captures is in the text. *)
Lemma within_search_line (p s : string) (m : list string) :
  re_search (Cat (Lit p) (Group (Star Dot))) s = Some m ->
  Py.within (group m 1) s.
Proof.
  induction s as [|c s IH]; cbn [re_search]; rewrite re_match_line;
    destruct (drop_lit p _) as [u|] eqn:D; cbn [option_map]; intros H;
    try discriminate H.
  - injection H as <-. apply drop_lit_spec in D. rewrite D.
    cbn [group Nat.sub nth]. apply within_skip.
    destruct (take_while_prefix Py.isdot u) as (b & E). rewrite E at 2.
    apply within_here.
  - injection H as <-. apply drop_lit_spec in D. rewrite D.
    cbn [group Nat.sub nth]. apply within_skip.
    destruct (take_while_prefix Py.isdot u) as (b & E). rewrite E at 2.
    apply within_here.
  - apply within_tail. now apply IH.
Qed.

Lemma parse_output_action_within (text action : string) :
  snd (_parse_output text) = Some action -> Py.within action text.
Proof.
  rewrite parse_output_action.
  destruct (re_search action_re text) as [m|] eqn:E; [|discriminate].
  cbn [option_map]. intros H. injection H as <-.
  eapply within_trans; [apply within_strip|].
  eapply within_search_line. exact E.
Qed.

(** A pass that returns an answer acted on a response whose action is
    [Finish[answer]], possibly with more text behind it. *)
Lemma act_return (agent : ReActAgent) (response : option string) (st : State)
      (X : string) :
  fst (act agent response st) = Return X ->
  exists text tail,
    response = Some text
    /\ snd (_parse_output text) = Some ("Finish[" ++ X ++ "]" ++ tail)
    /\ snd (act agent response st) = st.
Proof.
  unfold act.
  destruct response as [text|]; cbn [Py.falsy_opt]; [|discriminate].
  destruct (Py.falsy text); [discriminate|]. cbn [Py.or_empty].
  destruct (_parse_output text) as [thought action_opt] eqn:P. cbn [snd].
  destruct action_opt as [action|]; cbn [Py.falsy_opt]; [|discriminate].
  destruct (Py.falsy action); [discriminate|]. cbn [Py.or_empty].
  destruct (Py.startswith action "Finish").
  - destruct (re_match finish_re action) as [m|] eqn:E; [|discriminate].
    cbn [fst snd]. intros H. injection H as <-.
    unfold re_match, finish_re in E. cbn [exec] in E.
    destruct (drop_lit "Finish[" action) as [rest|] eqn:D; [|discriminate E].
    apply drop_lit_spec in D. subst action.
    apply star_sound in E as (x & rest2 & -> & Hx & E).
    destruct (drop_lit "]" rest2) as [tail|] eqn:D2; [|discriminate E].
    apply drop_lit_spec in D2. subst rest2. injection E as <-.
    exists text, tail. rewrite P. repeat split.
  - destruct (_parse_action action) as [tool_name tool_input].
    destruct (Py.falsy_opt tool_name || Py.falsy_opt tool_input); [discriminate|].
    destruct (getTool _ _); [|discriminate].
    destruct (call_tool _ _ _ _). discriminate.
Qed.

Lemma loop_answer (agent : ReActAgent) (question : string) :
  forall remaining st X,
    fst (loop agent question remaining st) = Returned (Some X) ->
    exists prev messages text tail,
      llm_calls (world (snd (loop agent question remaining st)))
      = List.app prev [(messages, Some text)]
      /\ snd (_parse_output text) = Some ("Finish[" ++ X ++ "]" ++ tail).
Proof.
  induction remaining as [|n IH]; intros st X; [discriminate|].
  cbn [loop]. rewrite step_eq.
  pose proof (act_return agent (response_at agent question st)
                         (after_think agent question st)) as R.
  destruct (act agent (response_at agent question st) (after_think agent question st))
    as [f st1].
  destruct f as [| |answer|e]; cbn [fst snd] in *; try discriminate.
  - apply IH.
  - intros H. injection H as <-.
    destruct (R answer eq_refl) as (text & tail & Hr & Hp & ->).
    exists (llm_calls (world st)), (messages_at agent question st), text, tail.
    split; [|exact Hp]. now rewrite after_think_llm, Hr.
Qed.

(** X20. An answer returned by [run] is copied from the model's last
    response: that response holds [Finish[answer]] as written, and the
    answer holds no line feed. *)
Theorem X20_answer_is_copied_from_the_last_response
        (agent : ReActAgent) (question : string) (st : State) (X : string) :
  fst (run agent question st) = Returned (Some X) ->
  Py.all_chars Py.isdot X = true
  /\ exists prev messages text,
       llm_calls (world (snd (run agent question st)))
       = List.app prev [(messages, Some text)]
       /\ Py.within ("Finish[" ++ X ++ "]") text.
Proof.
  unfold run. intros H.
  destruct (loop_answer _ _ _ _ _ H) as (prev & messages & text & tail & E & Hp).
  split; [exact (action_parts_dot text "Finish" X tail Hp)|].
  exists prev, messages, text. split; [exact E|].
  eapply within_trans; [|exact (parse_output_action_within _ _ Hp)].
  exists "", tail. now rewrite !app_assoc.
Qed.

(** What a pass does to the record of tool calls: nothing, or one call
    of a registered tool with a non-empty input, recorded with what the
    tool returned. *)
Lemma act_tool_call (agent : ReActAgent) (response : option string) (st : State) :
  tool_calls (world (snd (act agent response st))) = tool_calls (world st)
  \/ exists name input f,
       getTool (toolExecutor agent) name = Some f
       /\ Py.falsy input = false
       /\ tool_calls (world (snd (act agent response st)))
          = List.app (tool_calls (world st))
                     [(name, input, f (List.length (tool_calls (world st))) input)].
Proof.
  unfold act.
  destruct (Py.falsy_opt response); [now left|].
  destruct (_parse_output (Py.or_empty response)) as [thought action_opt].
  destruct (Py.falsy_opt action_opt); [now left|].
  destruct (Py.startswith (Py.or_empty action_opt) "Finish").
  { destruct (re_match finish_re (Py.or_empty action_opt)); now left. }
  destruct (_parse_action (Py.or_empty action_opt)) as [tool_name tool_input].
  destruct (Py.falsy_opt tool_name || Py.falsy_opt tool_input) eqn:F; [now left|].
  apply orb_false_iff in F as [_ F].
  destruct (getTool (toolExecutor agent) (Py.or_empty tool_name)) as [f|] eqn:G;
    [|now left].
  right. exists (Py.or_empty tool_name), (Py.or_empty tool_input), f.
  repeat split; [exact G | now destruct tool_input].
Qed.

(** X21. Every tool call of a run names a registered tool and has a
    non-empty input, and the observation recorded for it is what that
    tool returned for that input. *)
Theorem X21_only_registered_tools_are_called
        (agent : ReActAgent) (question : string) (st : State) :
  Forall (fun call =>
            let '(name, input, observation) := call in
            Py.falsy input = false
            /\ exists f k, getTool (toolExecutor agent) name = Some f
                           /\ observation = f k input)
         (tool_calls_since st (snd (run agent question st))).
Proof.
  unfold run, tool_calls_since.
  change (tool_calls (world st)) with (tool_calls (world (reset st))).
  generalize (reset st) as s. generalize (Z.to_nat (maxSteps agent)) as n.
  clear st. intros n s.
  assert (G : exists new,
             tool_calls (world (snd (loop agent question n s)))
             = List.app (tool_calls (world s)) new
             /\ Forall (fun call =>
                          let '(name, input, observation) := call in
                          Py.falsy input = false
                          /\ exists f k, getTool (toolExecutor agent) name = Some f
                                         /\ observation = f k input) new).
  { revert s. induction n as [|n IH]; intros s.
    - exists []. cbn [loop snd]. now rewrite List.app_nil_r.
    - cbn [loop]. rewrite step_eq.
      pose proof (act_tool_call agent (response_at agent question s)
                                (after_think agent question s)) as T.
      rewrite after_think_tools in T.
      destruct (act agent (response_at agent question s) (after_think agent question s))
        as [f s1].
      cbn [fst snd] in T.
      assert (One : exists one,
                 tool_calls (world s1) = List.app (tool_calls (world s)) one
                 /\ Forall (fun call =>
                              let '(name, input, observation) := call in
                              Py.falsy input = false
                              /\ exists f k, getTool (toolExecutor agent) name = Some f
                                             /\ observation = f k input) one).
      { destruct T as [T | (name & input & g & Hg & Hi & T)].
        - exists []. now rewrite List.app_nil_r.
        - eexists. split; [exact T|]. constructor; [|constructor].
          split; [exact Hi|]. now exists g, (List.length (tool_calls (world s))). }
      destruct One as (one & E1 & F1).
      destruct f; cbn [snd]; try (now exists one).
      destruct (IH s1) as (new & E & F).
      exists (List.app one new). split.
      + now rewrite E, E1, List.app_assoc.
      + now apply Forall_app. }
  destruct G as (new & E & F). rewrite E, skipn_since. exact F.
Qed.

End RunExtras.

(* ================================================================== *)
(** * The requests of the executor *)

Section RequestExtras.

Import Client PlanSolve.

Variables (llm_client : HelloAgentsLLM) (bi : Builtins) (question : string).

Lemma transcript_not_none (plan : list literal) (results : list string) (k : nat) :
  transcript bi plan results (S k) <> "无".
Proof.
  intros H. apply (f_equal String.length) in H.
  cbn [transcript] in H. unfold block in H.
  rewrite !length_app in H. cbn [String.length] in H. lia.
Qed.

(** X19. The requests of [Executor.execute], one per step: the first
    shows ["无"] where the history goes; every later one shows the
    transcript of the steps done before it, which is never empty and
    never that word, whatever their results were. *)
Theorem X19_first_request_shows_no_history (steps : list literal) (w : World) :
  exists responses,
    List.length responses = List.length steps
    /\ let results := map Py.or_empty responses in
       llm_calls (snd (execute llm_client bi question steps w))
       = List.app (llm_calls w)
           (map (fun k =>
                   ([ {| role := "user";
                         content :=
                           EXECUTOR_PROMPT question (str bi (LList steps))
                             match k with
                             | O => "无"
                             | S _ => transcript bi steps results k
                             end
                             (str bi (nth k steps LNone)) |} ],
                    nth k responses None))
                (seq 0 (List.length steps)))
       /\ forall k,
            transcript bi steps results (S k)
            = transcript bi steps results k
              ++ block k (str bi (nth k steps LNone)) (nth k results "")
            /\ Py.falsy (transcript bi steps results (S k)) = false
            /\ transcript bi steps results (S k) <> "无".
Proof.
  destruct (execute_loop_spec llm_client bi question steps steps [] [] None w
                              eq_refl eq_refl) as (responses & Hn & E).
  cbn [List.length transcript List.app map] in E.
  exists responses. split; [exact Hn|]. cbv zeta. split.
  - unfold execute. rewrite E.
    assert (W : forall (r : option string) (h : string) (w' : World),
               snd (match (h, r, w') with
                    | (_, Some final_answer, w'') =>
                        (@inl string exn final_answer, w'')
                    | (_, None, w'') => (inr UnboundLocalError, w'')
                    end) = w')
      by (intros [r|] h w'; reflexivity).
    rewrite (W _ (transcript bi steps (map Py.or_empty responses) (List.length steps))).
    cbn [llm_calls]. f_equal. apply map_ext. intros k.
    unfold step_messages, step_prompt.
    destruct k as [|k]; [reflexivity|]. now rewrite transcript_nonempty.
  - intros k. split; [reflexivity|].
    split; [apply transcript_nonempty | apply transcript_not_none].
Qed.

End RequestExtras.

(* ================================================================== *)
(** * Examples: the ReAct agent *)

Section ReActExamples.

Import Client Tools Re ReAct.

#[local] Existing Instance Py.everyday.

(** White space and word characters beyond ASCII. *)
Example parse_output_strips_wide_space :
  _parse_output ("Thought: hm" ++ Py.ideographic_space ++ Py.nl
                 ++ "Action: " ++ Py.no_break_space ++ "echo[x]" ++ Py.ideographic_space)
  = (Some "hm", Some "echo[x]").
Proof. vm_compute. reflexivity. Qed.

Example parse_action_takes_any_script :
  _parse_action "搜索[天气]" = (Some "搜索", Some "天气")
  /\ _parse_action "，搜索[天气]" = (None, None).
Proof. split; vm_compute; reflexivity. Qed.

Example finish_behind_wide_space :
  fst (run (agent_of [says ("Action: " ++ Py.ideographic_space ++ "Finish[42]")]
                     echo_registry 5) "q" fresh)
  = Returned (Some "42").
Proof. vm_compute. reflexivity. Qed.

Lemma C1_witness :
  step busy_agent "q" fresh
  = (Continue,
     {| history := ["Action: echo[one]"; "Observation: you said one"];
        world := {| llm_calls := [(messages_at busy_agent "q" fresh,
                                   Some "Action: echo[one]")];
                    tool_calls := [("echo", "one", "you said one")] |} |})
  /\ List.length (history (snd (run busy_agent "q" fresh))) = 4.
Proof.
  destruct (C1_history_grows_by_two_per_tool_call busy_agent "q" fresh)
    as (Pass & _ & _ & _ & Run).
  split.
  - assert (T : tool_invocation busy_agent (response_at busy_agent "q" fresh)
                = Some ("echo[one]", "echo", "one")) by (vm_compute; reflexivity).
    rewrite T in Pass. destruct Pass as (f & G & E).
    assert (F : f = fun _ x => "you said " ++ x)
      by (vm_compute in G; now injection G as <-).
    rewrite E, F. reflexivity.
  - rewrite Run. vm_compute. reflexivity.
Defined.

Lemma C3_witness :
  loop finishing_agent "q" 5 fresh
    = (Returned (Some "echo[x] gave 42"), after_think finishing_agent "q" fresh)
  /\ history (after_think finishing_agent "q" fresh) = history fresh
  /\ tool_calls (world (after_think finishing_agent "q" fresh)) = tool_calls (world fresh).
Proof.
  apply (C3_finish_returns_payload finishing_agent "q" 4 fresh finish_text
                                   "echo[x] gave 42");
    vm_compute; reflexivity.
Defined.

Lemma C5_witness :
  loop musing_agent "q" 5 fresh
    = (Returned None, after_think musing_agent "q" fresh)
  /\ history (after_think musing_agent "q" fresh) = history fresh
  /\ fst (run musing_agent "q" fresh) = Returned None
  /\ history (snd (run musing_agent "q" fresh)) = [].
Proof.
  destruct (C5_no_response_or_no_action_aborts musing_agent "q" 4 fresh)
    as (L & H & R).
  - right. exists musing_text. split; vm_compute; reflexivity.
  - split; [exact L | split; [exact H|]].
    apply R; [reflexivity | vm_compute; reflexivity].
Defined.

(** C5, as stated, fails: a response without a line that starts with
    [Action:] can still hold an action, inside a line; the pass then
    calls the tool, the history grows and the run goes on. *)
Lemma C5_action_inside_a_line_is_run :
  Py.startswith inline_text "Action:" = false
  /\ Py.occurs (Py.nl ++ "Action:") inline_text = false
  /\ fst (step inline_agent "q" fresh) = Continue
  /\ history (snd (step inline_agent "q" fresh))
     = ["Action: echo[hi] would help"; "Observation: you said hi"]
  /\ history (snd (run inline_agent "q" fresh))
     = ["Action: echo[hi] would help"; "Observation: you said hi"]
  /\ List.length (llm_calls (world (snd (run inline_agent "q" fresh)))) = 2.
Proof. vm_compute. repeat split. Qed.

Lemma C8_witness :
  snd (_parse_output ("Thought: look it up" ++ Py.nl ++ "Action: echo[a]b] "
                      ++ Py.nl ++ "Action: Finish[no]"))
  = Some "echo[a]b]"
  /\ act busy_agent (Some ("Action: echo[a]b] " ++ Py.nl ++ "Action: Finish[no]")) fresh
     = act busy_agent (Some "Action: echo[a]b] ") fresh
  /\ _parse_action "echo[a]b]" = (Some "echo", Some "a]b").
Proof.
  destruct C8_first_match_and_greedy_payload as (First & _ & _ & Same & Greedy).
  split; [|split].
  - apply (First ("Thought: look it up" ++ Py.nl) "echo[a]b] " "Action: Finish[no]");
      vm_compute; reflexivity.
  - apply (Same busy_agent fresh "" "echo[a]b] " "Action: Finish[no]").
  - apply (Greedy "echo" "a]b" ""); vm_compute; reflexivity.
Defined.

(** C8, as stated, fails twice.  For an action whose payload holds a
    closing bracket the tool name and the input are found.  And what
    follows the line of the first [Action: ] is not ignored by the
    parser: a thought written there is the thought it returns. *)
Lemma C8_payload_with_bracket_is_found :
  _parse_action "search[a]b]" = (Some "search", Some "a]b")
  /\ _parse_action "search[a]b]" <> (None, None)
  /\ fst (_parse_output ("Action: search[a]b]" ++ Py.nl ++ "Thought: later"))
     = Some "later"
  /\ fst (_parse_output "Action: search[a]b]") = None.
Proof.
  split; [vm_compute; reflexivity | split; [vm_compute; discriminate|]].
  split; vm_compute; reflexivity.
Qed.

Lemma C9_witness :
  (Z.of_nat (List.length (llm_calls_since fresh (snd (run busy_agent "q" fresh)))) <= 3)%Z
  /\ fst (run busy_agent "q" fresh) = Returned None.
Proof.
  destruct (C9_step_budget busy_agent "q" fresh) as (B & N).
  split; [exact B | apply N; vm_compute; reflexivity].
Defined.

Lemma C10_witness :
  loop silent_agent "q" 5 fresh = (Returned None, after_think silent_agent "q" fresh)
  /\ history (after_think silent_agent "q" fresh) = history fresh
  /\ fst (loop failing_agent "q" 5 fresh) = fst (loop silent_agent "q" 5 fresh)
  /\ history (snd (loop failing_agent "q" 5 fresh))
     = history (snd (loop silent_agent "q" 5 fresh)).
Proof.
  destruct (C10_empty_response_is_no_response silent_agent "q" 4 fresh)
    as (L & H & Same).
  - vm_compute. reflexivity.
  - split; [exact L | split; [exact H|]].
    apply (Same failing_agent). vm_compute. reflexivity.
Defined.

Lemma X4_witness :
  Py.strip "echo[a b]" = "echo[a b]"
  /\ Py.space_len "echo[a b]" = 0
  /\ (forall a b, "echo[a b]" = a ++ b -> Py.falsy b = false -> Py.blank b = false)
  /\ Py.all_chars Py.isdot "echo[a b]" = true.
Proof.
  apply (X4_parse_output_fields_are_trimmed
           ("Thought:  think " ++ Py.nl ++ "Action: " ++ Py.ideographic_space
            ++ " echo[a b] " ++ Py.no_break_space ++ Py.nl ++ "more")).
  right. vm_compute. reflexivity.
Defined.

Lemma X6_witness :
  _parse_action ("finish" ++ "(answer=42)") = (None, None)
  /\ act musing_agent (Some "Action: finish(answer=42)") fresh = (Continue, fresh).
Proof.
  apply (X6_action_without_bracket_is_skipped
           musing_agent fresh "Action: finish(answer=42)" "finish" "(answer=42)");
    vm_compute; reflexivity.
Defined.


Lemma X8_witness :
  act busy_agent (Some ("Action: echo[one] please" ++ Py.ideographic_space)) fresh
  = (Continue,
     {| history := ["Action: echo[one] please"; "Observation: you said one"];
        world := {| llm_calls := []; tool_calls := [("echo", "one", "you said one")] |} |}).
Proof.
  apply (X8_tool_pass_records_action_and_observation
           busy_agent fresh ("Action: echo[one] please" ++ Py.ideographic_space)
           "echo" "one" " please" (fun _ x => "you said " ++ x));
    vm_compute; reflexivity.
Defined.


Lemma X10_witness :
  act musing_agent (Some "Action: Finish[42] (I am sure)") fresh = (Return "42", fresh).
Proof.
  apply (X10_finish_drops_trailing_text musing_agent fresh
           "Action: Finish[42] (I am sure)" "42" " (I am sure)");
    vm_compute; reflexivity.
Defined.

Lemma X11_witness :
  act musing_agent (Some "Action: Finished[42]") fresh = (Raised AttributeError, fresh).
Proof.
  apply (X11_finish_without_brackets_raises musing_agent fresh
           "Action: Finished[42]" "ed[42]");
    [vm_compute; reflexivity | left; vm_compute; reflexivity].
Defined.

Lemma X12_witness :
  exists prompt,
    messages_at busy_agent "q" midway = [ {| role := "user"; content := prompt |} ]
    /\ Py.within "q" prompt
    /\ Py.within (getAvailableTools (toolExecutor busy_agent)) prompt
    /\ Py.within "Observation: you said one" prompt.
Proof.
  destruct (X12_prompt_carries_the_whole_history busy_agent "q" midway)
    as (prompt & M & Q & T & L).
  exists prompt. repeat split; try assumption.
  apply L. right. left. reflexivity.
Defined.

Lemma X20_witness :
  Py.all_chars Py.isdot "echo[x] gave 42" = true
  /\ exists prev messages text,
       llm_calls (world (snd (run finishing_agent "q" fresh)))
       = List.app prev [(messages, Some text)]
       /\ Py.within ("Finish[" ++ "echo[x] gave 42" ++ "]") text.
Proof.
  apply (X20_answer_is_copied_from_the_last_response finishing_agent "q" fresh).
  vm_compute. reflexivity.
Defined.

End ReActExamples.

(* ================================================================== *)
(** * Examples: the client and the search tool *)

Section ClientExamples.

Import Client Config.

Lemma X1_witness :
  fst (think (scripted [Stream [Some "Act"; None; Some "ion"]]) [] no_calls) = Some "Action".
Proof.
  exact (proj1 (X1_think_collects_the_stream
                  (scripted [Stream [Some "Act"; None; Some "ion"]]) [] no_calls)
               [Some "Act"; None; Some "ion"] eq_refl).
Defined.

Lemma X2_witness :
  init (fun _ => None) full_env all_args
  = inl {| model_id := "m"; api_key := "k"; base_url := "http://u"; timeout_s := 5 |}.
Proof.
  apply (X2_explicit_arguments_win (fun _ => None) full_env "m" "k" "http://u" 5);
    (reflexivity || discriminate).
Defined.

Lemma X3_witness :
  (model_id {| model_id := "env-model"; api_key := "env-key";
               base_url := "http://env"; timeout_s := 30 |} <> ""
   /\ api_key {| model_id := "env-model"; api_key := "env-key";
                 base_url := "http://env"; timeout_s := 30 |} <> ""
   /\ base_url {| model_id := "env-model"; api_key := "env-key";
                  base_url := "http://env"; timeout_s := 30 |} <> "")
  /\ exists e, init decimal no_env no_args = inr e.
Proof.
  split.
  - apply (proj1 (X3_no_client_without_its_settings decimal full_env no_args)).
    vm_compute. reflexivity.
  - apply (proj2 (X3_no_client_without_its_settings decimal no_env no_args)).
    left. split; reflexivity.
Defined.

End ClientExamples.

Section SearchExamples.

Import Serp.

Lemma X14_witness :
  search blank_env down_api "rocq"
  = "搜索时发生错误: SerpAPI API key must be provided as an environment variable."
  /\ search key_env down_api "rocq" = "搜索时发生错误: connection refused".
Proof.
  destruct (X14_search_failures_come_back_as_text blank_env "rocq") as (NoKey & _).
  destruct (X14_search_failures_come_back_as_text key_env "rocq") as (_ & Down).
  split.
  - apply NoKey. reflexivity.
  - apply (Down down_api "secret"); reflexivity.
Defined.

End SearchExamples.

(* ================================================================== *)
(** * Examples: the planner, the executor and the orchestrator *)

Section PlanSolveExamples.

Import Client PlanSolve.

#[local] Existing Instance Py.everyday.

Lemma C6_witness :
  fst (plan planning_llm toy_builtins "q" no_calls) = [LStr "a"; LStr "b"]
  /\ fst (plan (scripted [says ("Use `python` here:" ++ Py.nl
                                ++ "```python" ++ Py.nl ++ "['a','b']" ++ Py.nl ++ "```"
                                ++ Py.nl ++ "Run it with `go`.")])
                toy_builtins "q" no_calls) = [LStr "a"; LStr "b"]
  /\ fst (plan (scripted [says ("```python" ++ Py.ideographic_space ++ "['a','b']"
                                ++ Py.ideographic_space)])
                toy_builtins "q" no_calls) = [LStr "a"; LStr "b"]
  /\ fst (plan chatty_llm toy_builtins "q" no_calls) = []
  /\ fst (plan broken_llm toy_builtins "q" no_calls) = []
  /\ fst (plan word_llm toy_builtins "q" no_calls) = [].
Proof.
  split; [|split; [|split; [|split; [|split]]]].
  - destruct (C6_plan_parses_fenced_list planning_llm toy_builtins "q" no_calls)
      as (Example & _).
    apply Example; vm_compute; reflexivity.
  - destruct (C6_plan_parses_fenced_list
                (scripted [says ("Use `python` here:" ++ Py.nl
                                 ++ "```python" ++ Py.nl ++ "['a','b']" ++ Py.nl ++ "```"
                                 ++ Py.nl ++ "Run it with `go`.")])
                toy_builtins "q" no_calls)
      as (_ & Fenced & _).
    destruct (Fenced ("Use `python` here:" ++ Py.nl) (Py.nl ++ "['a','b']" ++ Py.nl)
                     (Py.nl ++ "Run it with `go`."))
      as (List & _);
      [vm_compute; reflexivity .. | apply List; vm_compute; reflexivity].
  - destruct (C6_plan_parses_fenced_list
                (scripted [says ("```python" ++ Py.ideographic_space ++ "['a','b']"
                                 ++ Py.ideographic_space)])
                toy_builtins "q" no_calls)
      as (_ & _ & Unclosed & _).
    destruct (Unclosed "" (Py.ideographic_space ++ "['a','b']" ++ Py.ideographic_space))
      as (List & _);
      [vm_compute; reflexivity .. | apply List; vm_compute; reflexivity].
  - destruct (C6_plan_parses_fenced_list chatty_llm toy_builtins "q" no_calls)
      as (_ & _ & _ & Missing & _).
    apply Missing. vm_compute. reflexivity.
  - destruct (C6_plan_parses_fenced_list broken_llm toy_builtins "q" no_calls)
      as (_ & Fenced & _).
    destruct (Fenced "" (Py.nl ++ "['a'," ++ Py.nl) "")
      as (_ & Malformed & _);
      [vm_compute; reflexivity .. | apply Malformed; vm_compute; reflexivity].
  - destruct (C6_plan_parses_fenced_list word_llm toy_builtins "q" no_calls)
      as (_ & Fenced & _).
    destruct (Fenced "" (Py.nl ++ "'a'" ++ Py.nl) "")
      as (_ & _ & NotList); [vm_compute; reflexivity .. |].
    apply (NotList (LStr "a")); [vm_compute; reflexivity|].
    intros steps. discriminate.
Defined.

(** C6, as stated, fails: with the closing fence missing the planner
    still returns the list written after the opening fence, not the
    empty list. *)
Lemma C6_missing_closing_fence_is_parsed :
  Py.occurs "```" (Py.nl ++ "['a','b']") = false
  /\ fst (plan (scripted [says ("```python" ++ Py.nl ++ "['a','b']")])
                toy_builtins "q" no_calls)
     = [LStr "a"; LStr "b"]
  /\ fst (plan (scripted [says ("```python" ++ Py.nl ++ "['a','b']")])
                toy_builtins "q" no_calls)
     <> [].
Proof.
  split; [vm_compute; reflexivity | split; [vm_compute; reflexivity|]].
  vm_compute. discriminate.
Qed.


Lemma X16_witness :
  fst (PlanSolve.plan (Client.scripted [Client.says ("Plan:" ++ Py.nl ++ "```python"
                                                     ++ Py.nl ++ "['a','b']")])
                      PlanSolve.toy_builtins "q" Client.no_calls)
  = [PlanSolve.LStr "a"; PlanSolve.LStr "b"].
Proof.
  apply (X16_closing_fence_is_optional _ _ _ _ ("Plan:" ++ Py.nl) (Py.nl ++ "['a','b']"));
    vm_compute; reflexivity.
Defined.

Lemma X17_witness :
  snd (PlanSolve.execute PlanSolve.solving_llm PlanSolve.toy_builtins "q" []
                         Client.no_calls)
  = Client.no_calls.
Proof.
  exact (proj2 (X17_execute_raises_on_the_empty_plan_only
                  PlanSolve.solving_llm PlanSolve.toy_builtins "q" [] Client.no_calls)
               eq_refl).
Defined.

Lemma X18_witness :
  fst (PlanSolve.run PlanSolve.planning_llm PlanSolve.toy_builtins "q" Client.no_calls)
  = PlanSolve.Solved ""
  /\ List.length (Client.llm_calls
                    (snd (PlanSolve.run PlanSolve.planning_llm PlanSolve.toy_builtins
                                        "q" Client.no_calls))) = 3.
Proof.
  destruct (X18_orchestrator_never_fails PlanSolve.planning_llm PlanSolve.toy_builtins
              "q" Client.no_calls) as (_ & Solves).
  destruct Solves as (R & N).
  - vm_compute. discriminate.
  - split; [rewrite R; vm_compute; reflexivity | rewrite N; vm_compute; reflexivity].
Defined.

End PlanSolveExamples.
